(** * AcadHack quiz automation engine: a shallow embedding

    The development follows the three source modules it verifies:

    - [gemini_solver] : the answer selector ([GeminiSolver]),
    - [scraper]       : the content extractor ([scrape_quiz_data]),
    - [main]          : the automation loop ([run_solver_loop]),

    and, beside them, the text escaping of [app_webview] and the
    settings kept in [config.json] ([config_manager], the overrides of
    [config] and the two settings calls of [app_webview]).

    Python text is modelled by [string]; the character classes used by
    [str.strip], [str.split], [str.upper] and by the [re] module are the
    ones Python applies to the ASCII range (code points below 128), which
    is the range this model covers.  Clock readings and durations are
    integers, in milliseconds, instead of floating-point seconds. *)

From Stdlib Require Import Bool List Arith ZArith Lia.
From Stdlib Require Import Ascii String DecimalString.
From Stdlib Require Import Sorting.Permutation.
Import ListNotations.

Local Open Scope string_scope.
Local Open Scope list_scope.
Local Open Scope nat_scope.

Set Warnings "-register-all".

(** ** Python [str] methods used by the sources *)

Module PyStr.

Definition code (c : ascii) : nat := nat_of_ascii c.

(** [str.isspace] on one ASCII character: TAB, LF, VT, FF, CR,
    FS, GS, RS, US and SPACE. *)
Definition isspace (c : ascii) : bool :=
  let n := code c in
  ((9 <=? n) && (n <=? 13)) || ((28 <=? n) && (n <=? 32)).

Definition islower (c : ascii) : bool :=
  let n := code c in (97 <=? n) && (n <=? 122).

Definition isupper (c : ascii) : bool :=
  let n := code c in (65 <=? n) && (n <=? 90).

Definition isdigit (c : ascii) : bool :=
  let n := code c in (48 <=? n) && (n <=? 57).

(** The class [\w] of [re]: alphanumerics and the underscore. *)
Definition isword (c : ascii) : bool :=
  islower c || isupper c || isdigit c || (code c =? 95).

Definition upper_char (c : ascii) : ascii :=
  if islower c then ascii_of_nat (code c - 32) else c.

(** [s.upper()] *)
Fixpoint upper (s : string) : string :=
  match s with
  | EmptyString => EmptyString
  | String c rest => String (upper_char c) (upper rest)
  end.

(** [s.lstrip()] *)
Fixpoint lstrip (s : string) : string :=
  match s with
  | EmptyString => EmptyString
  | String c rest => if isspace c then lstrip rest else s
  end.

(** [s.rstrip()] *)
Fixpoint rstrip (s : string) : string :=
  match s with
  | EmptyString => EmptyString
  | String c rest =>
      match rstrip rest with
      | EmptyString => if isspace c then EmptyString else String c EmptyString
      | r => String c r
      end
  end.

(** [s.strip()] *)
Definition strip (s : string) : string := rstrip (lstrip s).

(** [s.split()] with no separator: the maximal runs of characters that
    are not whitespace, in order.  [cur] is the run being read. *)
Fixpoint split_from (cur : string) (s : string) : list string :=
  match s with
  | EmptyString =>
      match cur with EmptyString => [] | _ => [cur] end
  | String c rest =>
      if isspace c
      then match cur with
           | EmptyString => split_from EmptyString rest
           | _ => cur :: split_from EmptyString rest
           end
      else split_from (cur ++ String c EmptyString)%string rest
  end.

Definition split (s : string) : list string := split_from EmptyString s.

(** [sep.join(parts)] *)
Fixpoint join (sep : string) (parts : list string) : string :=
  match parts with
  | [] => EmptyString
  | [p] => p
  | p :: ps => (p ++ sep ++ join sep ps)%string
  end.

(** Truth value of a string: [if s:] / [if not s:]. *)
Definition truthy (s : string) : bool :=
  match s with EmptyString => false | _ => true end.

Definition head (s : string) : option ascii :=
  match s with EmptyString => None | String c _ => Some c end.

(** [sub in s] for strings. *)
Fixpoint contains (sub s : string) : bool :=
  prefix sub s ||
  match s with
  | EmptyString => false
  | String _ rest => contains sub rest
  end.

(** [s.lower()] *)
Definition lower_char (c : ascii) : ascii :=
  if isupper c then ascii_of_nat (code c + 32) else c.

Fixpoint lower (s : string) : string :=
  match s with
  | EmptyString => EmptyString
  | String c rest => String (lower_char c) (lower rest)
  end.

(** Only whitespace. *)
Fixpoint blank (s : string) : bool :=
  match s with
  | EmptyString => true
  | String c rest => isspace c && blank rest
  end.

End PyStr.

(** ** Exceptions, results and dictionaries *)

Module Py.

(** The exception classes the sources tell apart.  [TimeoutException]
    and [StaleElementReferenceException] are subclasses of selenium's
    [WebDriverException]; [WebDriverError] stands for every other
    instance of it, [OtherError] for any other [Exception]
    ([RuntimeError], [ValueError], ...). *)
Inductive ExnClass :=
| TimeoutException
| StaleElementReferenceException
| WebDriverError
| OtherError.

Record Exn := { cls : ExnClass; msg : string }.

(** [isinstance(e, WebDriverException)] *)
Definition is_WebDriverException (e : Exn) : bool :=
  match cls e with OtherError => false | _ => true end.

Inductive result (A : Type) :=
| Ok (a : A)
| Raise (e : Exn).
Arguments Ok {A} a.
Arguments Raise {A} e.

Definition bind {A B} (r : result A) (k : A -> result B) : result B :=
  match r with Ok a => k a | Raise e => Raise e end.

(** [try: r  except Exception: h] *)
Definition try_except {A} (r : result A) (h : Exn -> result A) : result A :=
  match r with Ok a => Ok a | Raise e => h e end.

(** A [dict] with string keys: the items in insertion order, each key
    once. *)
Definition dict (V : Type) := list (string * V).

Fixpoint get {V} (d : dict V) (k : string) : option V :=
  match d with
  | [] => None
  | (k', v) :: rest => if String.eqb k' k then Some v else get rest k
  end.

(** [d[k] = v]: an existing key keeps its place, a new one goes last. *)
Fixpoint set {V} (d : dict V) (k : string) (v : V) : dict V :=
  match d with
  | [] => [(k, v)]
  | (k', v') :: rest =>
      if String.eqb k' k then (k', v) :: rest else (k', v') :: set rest k v
  end.

Definition keys {V} (d : dict V) : list string := map fst d.

(** [x in l] for a list of strings. *)
Definition mem (x : string) (l : list string) : bool :=
  existsb (String.eqb x) l.

(** The order in which the members of a list first occur. *)
Fixpoint first_occurrences (l : list string) : list string :=
  match l with
  | [] => []
  | x :: rest =>
      x :: filter (fun y => negb (String.eqb y x)) (first_occurrences rest)
  end.

Definition add_key (acc : list string) (k : string) : list string :=
  if mem k acc then acc else acc ++ [k].

(** A content fragment of the payload: a [str] or the [bytes] of a PNG. *)
Inductive Fragment :=
| Text (s : string)
| Image (png : string).

(** A [WebElement] held by the loop, named by an identifier. *)
Definition Handle := nat.

(** The dictionary returned by [scrape_quiz_data]. *)
Record QuizData := {
  question : list Fragment;
  options : dict (list Fragment);
  option_elements : dict Handle
}.

End Py.

Declare Scope py_scope.
Notation "x <- r ;; k" := (Py.bind r (fun x => k))
  (at level 61, r at next level, right associativity) : py_scope.

(** ** gemini_solver.py *)

Module gemini_solver.

Import PyStr.
Import Py.

(** The character class [[ABCD]]; also the test [ch in "ABCD"] on a
    single character. *)
Definition in_ABCD (c : ascii) : bool :=
  let n := code c in (65 <=? n) && (n <=? 68).

Definition isword_opt (o : option ascii) : bool :=
  match o with Some c => isword c | None => false end.

(** The assertion [\b]: exactly one of the two neighbouring positions
    holds a word character; outside the string counts as a non-word. *)
Definition word_boundary (before after : option ascii) : bool :=
  xorb (isword_opt before) (isword_opt after).

(** [re.search(r"\b([ABCD])\b", s)], the leftmost match, returning
    group 1.  [prev] is the character before the current position. *)
Fixpoint re_search_token (prev : option ascii) (s : string) : option ascii :=
  match s with
  | EmptyString => None
  | String c rest =>
      if word_boundary prev (Some c) && in_ABCD c
         && word_boundary (Some c) (head rest)
      then Some c
      else re_search_token (Some c) rest
  end.

(** [for ch in raw: if ch in "ABCD": return ch] *)
Fixpoint first_ABCD (s : string) : option ascii :=
  match s with
  | EmptyString => None
  | String c rest => if in_ABCD c then Some c else first_ABCD rest
  end.

Definition str1 (c : ascii) : string := String c EmptyString.

Definition _extract_letter (raw_text : string) : string :=
  if negb (truthy raw_text) then "A"
  else
    let raw := upper (strip raw_text) in
    match re_search_token None raw with
    | Some c => str1 c
    | None =>
        match first_ABCD raw with
        | Some ch => str1 ch
        | None => "A"
        end
    end.

(** *** The parsing rule in the words of the specification

    It speaks of positions of the uppercased response: a standalone
    token is an alphabet letter with no word character next to it on
    either side. *)

Definition char_at (s : string) (i : nat) : option ascii := String.get i s.

Definition letter_at (s : string) (i : nat) : bool :=
  match char_at s i with Some c => in_ABCD c | None => false end.

Definition standalone_at (s : string) (i : nat) : bool :=
  letter_at s i
  && negb (isword_opt (if i =? 0 then None else char_at s (i - 1)))
  && negb (isword_opt (char_at s (i + 1))).

(** The last character of a string, if any. *)
Definition last_char (pre : string) : option ascii :=
  if String.length pre =? 0 then None
  else char_at pre (String.length pre - 1).

(** The least position below [n] where [p] holds. *)
Definition first_position (p : nat -> bool) (n : nat) : option nat :=
  find p (List.seq 0 n).

Definition label_at (s : string) (i : nat) : string :=
  match char_at s i with Some c => str1 c | None => "A" end.

Definition parse_label_spec (response : string) : string :=
  let u := upper response in
  match first_position (standalone_at u) (String.length u) with
  | Some i => label_at u i
  | None =>
      match first_position (letter_at u) (String.length u) with
      | Some i => label_at u i
      | None => "A"
      end
  end.

(** *** Payload and request parts *)

(** A part of the request sent to the service: a [str] or the
    dictionary [{"mime_type": ..., "data": ...}]. *)
Inductive Part :=
| PText (s : string)
| PBlob (mime_type : string) (data : string).

Definition _content_part_from_value (value : list Fragment) (label : string)
  : list Part :=
  let parts := if truthy label then [PText (label ++ ":")%string] else [] in
  fold_left
    (fun parts item =>
       match item with
       | Image data => parts ++ [PBlob "image/png" data]
       | Text item =>
           let text := strip item in
           if truthy text then parts ++ [PText text] else parts
       end)
    value parts.

(** [sorted(keys)] on strings: ordered by code points. *)
Fixpoint insert_sorted (k : string) (l : list string) : list string :=
  match l with
  | [] => [k]
  | x :: xs => if String.leb k x then k :: l else x :: insert_sorted k xs
  end.

Definition sorted (l : list string) : list string :=
  fold_right insert_sorted [] l.

Definition _build_contents (quiz_data : QuizData) : list Part :=
  let question_value := question quiz_data in
  let options := options quiz_data in
  let contents :=
    [PText ("You will receive one question and several answer options. "
            ++ "Identify the single best answer and respond ONLY with its letter.")%string] in
  let contents := contents ++ _content_part_from_value question_value "Question" in
  let contents :=
    fold_left
      (fun contents label =>
         match get options label with
         | Some value =>
             contents ++ _content_part_from_value value ("Option " ++ label)%string
         | None => contents
         end)
      (sorted (keys options)) contents in
  contents ++
    [PText "Final answer: respond with exactly one capital letter: A, B, C, or D."].

(** *** The solver object and one call of the service *)

Record GeminiSolver := {
  api_key : string;
  model_name : string;
  rate_limit_interval : Z;
  _last_request_time : Z
}.

(** [GeminiSolver.__init__]; [None] stands for the [ValueError] raised
    on an empty key. *)
Definition __init__ (api_key model_name : string) (rate_limit_interval : Z)
  : option GeminiSolver :=
  if negb (truthy api_key) then None
  else Some {| api_key := api_key;
               model_name := model_name;
               rate_limit_interval := rate_limit_interval;
               _last_request_time := 0%Z |}.

(** What [self.model.generate_content(contents)] does: it raises, or it
    returns a response whose [text] attribute is a string, or is [None]
    or missing. *)
Inductive Reply :=
| Raises (e : string)
| Returns (text : option string).

(** The surroundings of one call of [get_answer]: the clock reading on
    entry, by how much [time.sleep] overshoots, what the service does
    with the request and how long it takes. *)
Record Call := {
  now : Z;
  oversleep : Z;
  reply : list Part -> Reply;
  latency : Z
}.

(** [_enforce_rate_limit]: the argument handed to [time.sleep], if it
    is called at all. *)
Definition _enforce_rate_limit (self : GeminiSolver) (now : Z) : option Z :=
  let elapsed := (now - _last_request_time self)%Z in
  let remaining := (rate_limit_interval self - elapsed)%Z in
  if (remaining >? 0)%Z then Some remaining else None.

Record Answered := {
  answer : string;
  solver : GeminiSolver;
  slept : option Z;       (* argument of [time.sleep] *)
  request_time : Z;       (* clock when [generate_content] is called *)
  printed : list string
}.

Definition get_answer (self : GeminiSolver) (quiz_data : QuizData) (w : Call)
  : Answered :=
  let slept := _enforce_rate_limit self (now w) in
  let t_request :=
    match slept with
    | Some remaining => (now w + remaining + oversleep w)%Z
    | None => now w
    end in
  let contents := _build_contents quiz_data in
  match reply w contents with
  | Raises e =>
      let answer := "A" in
      {| answer := answer;
         solver := self;
         slept := slept;
         request_time := t_request;
         printed := [("[GeminiSolver] Error calling Gemini API: " ++ e)%string;
                     ("[GeminiSolver] Model chose answer: " ++ answer)%string] |}
  | Returns text =>
      let self' := {| api_key := api_key self;
                      model_name := model_name self;
                      rate_limit_interval := rate_limit_interval self;
                      _last_request_time := (t_request + latency w)%Z |} in
      let raw := match text with Some t => t | None => "" end in
      let answer := _extract_letter raw in
      {| answer := answer;
         solver := self';
         slept := slept;
         request_time := t_request;
         printed := [("[GeminiSolver] Model chose answer: " ++ answer)%string] |}
  end.

End gemini_solver.

(** ** config.py *)

Module config.

Definition QUESTION_CLASS := "question".
Definition OPTION_CARD_CLASS := "option-card".
Definition OPTION_LABEL_CLASS := "option-label-box".
Definition ACTION_BUTTON_CLASS := "selected-btn".
Definition POPUP_OVERLAY_CLASS := "popup-overlay".
Definition POPUP_YES_BUTTON_CLASS := "yes-btn".
Definition NEXT_BUTTON_TEXT := "Next Question".
Definition SUBMIT_BUTTON_TEXT := "Submit Quiz".
Definition SUPPORTED_OPTION_LABELS := ["A"; "B"; "C"; "D"].
Definition BOOSTER_QUESTION_CLASS := "boosterQuestion".
Definition BOOSTER_ACTION_BUTTON_SELECTOR := ".v2-btn-rgt, .btn-rgt".
Definition BOOSTER_FINISHED_CLASS := "proficiency-status".

(** The values [config.json] may override, and the wait timeout the
    loop rewrites while it polls.  Durations are in milliseconds. *)
Record Settings := {
  API_KEY : string;
  GEMINI_MODEL_NAME : string;
  API_RATE_LIMIT_INTERVAL : Z;
  DEFAULT_WAIT_TIMEOUT : Z;
  STEALTH_ENABLED : bool;
  MIN_DELAY_SECONDS : Z;
  MAX_DELAY_SECONDS : Z;
  BOOSTER_ENABLED : bool
}.

Definition defaults : Settings :=
  {| API_KEY := "YOUR_API_KEY_HERE";
     GEMINI_MODEL_NAME := "gemini-2.5-flash";
     API_RATE_LIMIT_INTERVAL := 2000;
     DEFAULT_WAIT_TIMEOUT := 300000;
     STEALTH_ENABLED := false;
     MIN_DELAY_SECONDS := 5000;
     MAX_DELAY_SECONDS := 20000;
     BOOSTER_ENABLED := false |}.

End config.

(** ** scraper.py *)

Module scraper.

Import PyStr.
Import Py.
Local Open Scope py_scope.

(** *** The parse tree of BeautifulSoup *)

Inductive Node :=
| NavigableString (s : string)
| Tag (name : string) (contents : list Node).

(** The strings below a node, in document order. *)
Fixpoint strings_of (n : Node) : list string :=
  match n with
  | NavigableString s => [s]
  | Tag _ contents => flat_map strings_of contents
  end.

(** [get_text(separator=sep)] of a list of sibling nodes. *)
Definition get_text (sep : string) (nodes : list Node) : string :=
  join sep (flat_map strings_of nodes).

(** Whether [find_all(name)] finds a tag at or below the node. *)
Fixpoint has_tag (name : string) (n : Node) : bool :=
  match n with
  | NavigableString _ => false
  | Tag t contents => String.eqb t name || existsb (has_tag name) contents
  end.

Definition detached : Exn :=
  {| cls := OtherError;
     msg := "Cannot replace an element with its contents when that element is not part of a tree." |}.

(** The loop

      for tag in soup.find_all(name):
          tag.string = f"{mark}{tag.get_text()}"
          tag.unwrap()

    Each tag found is replaced by one string.  A tag of the same name
    inside it was cut off the tree when the outer tag's string was
    set, and [unwrap] refuses such a tag. *)
Fixpoint rewrite_tag (name mark : string) (n : Node) : result (list Node) :=
  match n with
  | NavigableString _ => Ok [n]
  | Tag t contents =>
      if String.eqb t name then
        if existsb (has_tag name) contents then Raise detached
        else Ok [NavigableString (mark ++ get_text "" contents)%string]
      else
        contents' <-
          fold_right
            (fun child acc =>
               c <- rewrite_tag name mark child ;;
               rest <- acc ;;
               Ok (c ++ rest))
            (Ok []) contents ;;
        Ok [Tag t contents']
  end.

Definition rewrite_all (name mark : string) (soup : list Node)
  : result (list Node) :=
  fold_right
    (fun child acc =>
       c <- rewrite_tag name mark child ;;
       rest <- acc ;;
       Ok (c ++ rest))
    (Ok []) soup.

(** *** What the driver answers about the page *)

Record Img := {
  is_displayed : result bool;
  screenshot_as_png : result string
}.

Record Element := {
  innerHTML : result (option string);   (* get_attribute("innerHTML") *)
  text : result string;                 (* .text *)
  imgs : result (list Img)              (* find_elements(By.TAG_NAME, "img") *)
}.

Record Card := {
  card_id : Handle;
  label_text : result string;           (* find_element(label class).text *)
  option_text : result Element;         (* find_element(By.CLASS_NAME, "option-text") *)
  card_element : Element                (* the card itself *)
}.

Record Page := {
  (* wait.until(EC.visibility_of_element_located((By.CLASS_NAME, c))) *)
  visible_element : string -> result Element;
  (* wait.until(EC.presence_of_all_elements_located((By.CLASS_NAME, c))) *)
  present_elements : string -> result (list Card)
}.

Section WithParser.

(** [BeautifulSoup(html, "html.parser")], the parser of the bs4
    library. *)
Variable BeautifulSoup : string -> list Node.

Definition parse_math_expressions (html_content : option string)
  : result string :=
  match html_content with
  | None => Ok ""
  | Some html_content =>
      if negb (truthy html_content) then Ok ""
      else
        let soup := BeautifulSoup html_content in
        soup <- rewrite_all "sup" "^" soup ;;
        soup <- rewrite_all "sub" "_" soup ;;
        let text_content := get_text " " soup in
        Ok (join " " (split text_content))
  end.

Definition _extract_element_content (element : Element)
  : result (list Fragment) :=
  let content_parts := [] in
  (* 1. text *)
  content_parts <-
    try_except
      (raw_html <- innerHTML element ;;
       text <- parse_math_expressions raw_html ;;
       Ok (if truthy text then content_parts ++ [Text text]
           else content_parts))
      (fun _ =>
         t <- text element ;;
         let text := strip t in
         Ok (if truthy text then content_parts ++ [Text text]
             else content_parts)) ;;
  (* 2. images *)
  match imgs element with
  | Raise _ => Ok content_parts
  | Ok images =>
      Ok (fold_left
            (fun content_parts img =>
               match is_displayed img with
               | Ok true =>
                   match screenshot_as_png img with
                   | Ok png => content_parts ++ [Image png]
                   | Raise _ => content_parts
                   end
               | _ => content_parts
               end)
            images content_parts)
  end.

(** One turn of [for card in option_cards], on the two dictionaries. *)
Definition scrape_card
    (acc : dict (list Fragment) * dict Handle) (card : Card)
  : result (dict (list Fragment) * dict Handle) :=
  let '(options_data, option_elements) := acc in
  match label_text card with
  | Raise _ => Ok acc                                   (* continue *)
  | Ok t =>
      let label := upper (strip t) in
      if negb (mem label config.SUPPORTED_OPTION_LABELS) then Ok acc
      else
        let content_element :=
          match option_text card with
          | Ok e => e
          | Raise _ => card_element card
          end in
        content <- _extract_element_content content_element ;;
        Ok (set options_data label content,
            set option_elements label (card_id card))
  end.

Fixpoint scrape_cards
    (acc : dict (list Fragment) * dict Handle) (cards : list Card)
  : result (dict (list Fragment) * dict Handle) :=
  match cards with
  | [] => Ok acc
  | card :: rest =>
      acc <- scrape_card acc card ;;
      scrape_cards acc rest
  end.

Definition no_valid_options : Exn :=
  {| cls := OtherError;
     msg := "No valid options (A–D) found on the page." |}.

Definition scrape_quiz_data (driver : Page) (mode : string)
  : result QuizData :=
  let question_class :=
    if String.eqb mode "booster" then config.BOOSTER_QUESTION_CLASS
    else config.QUESTION_CLASS in
  question_element <- visible_element driver question_class ;;
  question_content <- _extract_element_content question_element ;;
  option_cards <- present_elements driver config.OPTION_CARD_CLASS ;;
  acc <- scrape_cards ([], []) option_cards ;;
  let '(options_data, option_elements) := acc in
  match options_data with
  | [] => Raise no_valid_options
  | _ =>
      Ok {| question := question_content;
            options := options_data;
            option_elements := option_elements |}
  end.

End WithParser.

(** The label a card contributes to the dictionaries, if any, and the
    labels of the cards of a page in the order of the cards. *)
Definition card_label (card : Card) : option string :=
  match label_text card with
  | Ok t =>
      let label := upper (strip t) in
      if mem label config.SUPPORTED_OPTION_LABELS then Some label else None
  | Raise _ => None
  end.

(** The class of the question element in a mode. *)
Definition question_class (mode : string) : string :=
  if String.eqb mode "booster" then config.BOOSTER_QUESTION_CLASS
  else config.QUESTION_CLASS.

Definition dom_labels (cards : list Card) : list string :=
  flat_map
    (fun card => match card_label card with Some l => [l] | None => [] end)
    cards.

End scraper.

(** ** A reading of simple markup by the bs4 parser

    [scraper.parse_math_expressions] takes the parser as a parameter.
    This instance reads the part of HTML needed to run it on examples:
    character data, start tags and end tags (attributes are skipped,
    names are lower-cased, void elements have no contents, an end tag
    closes the nearest open element of its name, the end of the input
    closes what is open).  Comments, declarations and character
    references are outside of it. *)

Module bs4.

Import PyStr.
Import scraper.

Inductive Token :=
| Data (s : string)
| StartTag (name : string)
| EndTag (name : string).

Definition isalpha (c : ascii) : bool := islower c || isupper c.

Inductive Lexing :=
| InData (acc : string)
| InTag (raw : string) (closing : bool) (name : string) (in_name : bool).

Definition flush (acc : string) : list Token :=
  if truthy acc then [Data acc] else [].

Definition starts_tag (rest : string) : bool :=
  match rest with
  | String d rest' =>
      isalpha d ||
      (Ascii.eqb d "/" &&
       match rest' with String e _ => isalpha e | EmptyString => false end)
  | EmptyString => false
  end.

Fixpoint lex (st : Lexing) (s : string) : list Token :=
  match s with
  | EmptyString =>
      match st with
      | InData acc => flush acc
      | InTag raw _ _ _ => [Data raw]
      end
  | String c rest =>
      match st with
      | InData acc =>
          if Ascii.eqb c "<" && starts_tag rest
          then flush acc ++ lex (InTag "<" false "" true) rest
          else lex (InData (acc ++ String c "")) rest
      | InTag raw closing name in_name =>
          let raw := (raw ++ String c "")%string in
          if Ascii.eqb c ">" then
            (if closing then EndTag name else StartTag name)
            :: lex (InData "") rest
          else if Ascii.eqb c "/" && String.eqb name "" then
            lex (InTag raw true name true) rest
          else if isspace c || Ascii.eqb c "/" then
            lex (InTag raw closing name false) rest
          else if in_name then
            lex (InTag raw closing (name ++ String (lower_char c) "") true) rest
          else lex (InTag raw closing name false) rest
      end
  end.

Definition void_elements : list string :=
  ["area"; "base"; "br"; "col"; "embed"; "hr"; "img"; "input"; "keygen";
   "link"; "menuitem"; "meta"; "param"; "source"; "track"; "wbr"].

(** An open element: its name and the nodes before it, last first. *)
Definition Frame := (string * list Node)%type.

(** Close the open elements up to and including the nearest [name]. *)
Fixpoint close_to (name : string) (stack : list Frame) (cur : list Node)
  : list Frame * list Node :=
  match stack with
  | [] => ([], cur)
  | (n, before) :: stack' =>
      let cur' := Tag n (rev cur) :: before in
      if String.eqb n name then (stack', cur') else close_to name stack' cur'
  end.

Fixpoint close_all (stack : list Frame) (cur : list Node) : list Node :=
  match stack with
  | [] => rev cur
  | (n, before) :: stack' => close_all stack' (Tag n (rev cur) :: before)
  end.

Fixpoint build (tokens : list Token) (stack : list Frame) (cur : list Node)
  : list Node :=
  match tokens with
  | [] => close_all stack cur
  | Data s :: rest =>
      match cur with
      | NavigableString s' :: cur' =>
          build rest stack (NavigableString (s' ++ s) :: cur')
      | _ => build rest stack (NavigableString s :: cur)
      end
  | StartTag n :: rest =>
      if Py.mem n void_elements then build rest stack (Tag n [] :: cur)
      else build rest ((n, cur) :: stack) []
  | EndTag n :: rest =>
      if Py.mem n (map fst stack)
      then let '(stack', cur') := close_to n stack cur in build rest stack' cur'
      else build rest stack cur
  end.

Definition BeautifulSoup (markup : string) : list Node :=
  build (lex (InData "") markup) [] [].

End bs4.

(** ** Text whose whitespace is already collapsed *)

Module Normal.

Import PyStr.

(** Every whitespace character is a single space between two other
    characters.  [after_space] tells whether the position is the start
    of the text or follows a space. *)
Fixpoint collapsed_from (after_space : bool) (s : string) : bool :=
  match s with
  | EmptyString => negb after_space
  | String c rest =>
      if Ascii.eqb c " " then negb after_space && collapsed_from true rest
      else negb (isspace c) && collapsed_from false rest
  end.

Definition collapsed (s : string) : bool :=
  match s with
  | EmptyString => true
  | _ => collapsed_from true s
  end.

(** The text holds no [<sup] and no [<sub]. *)
Definition no_sup_sub (s : string) : bool :=
  negb (contains "<sup" (lower s)) && negb (contains "<sub" (lower s)).

End Normal.

(** ** main.py *)

Module main.

Import PyStr.
Import Py.

(** *** What the loop does to the outside, in order *)

Inductive Target :=
| OptionCard (h : Handle)
| ActionButton
| YesButton
| PopupButton
| CloseButton.

Inductive Event :=
| Log (line : string)            (* log_queue.put(line) *)
| CheckStop (is_set : bool)      (* stop_event.is_set() and its answer *)
| Scrape                         (* scrape_quiz_data is called *)
| Solve                          (* solver.get_answer is called *)
| Clicked (t : Target)           (* a click went through *)
| Sleep (ms : Z).                (* time.sleep *)

(** How a piece of the body of [while True] leaves: by [continue],
    [break], [return], or with an exception no handler of the loop
    body takes.  [Unfinished] is not Python's: the recorded answers of
    the page end while the loop would go on. *)
Inductive Control :=
| Continue
| Break
| Return
| Propagate (e : Exn)
| Unfinished.

Inductive Flow (A : Type) :=
| Next (a : A)
| Exit (c : Control).
Arguments Next {A} a.
Arguments Exit {A} c.

(** A piece of code of the loop: from the solver object it starts
    with, the events it causes, its value or the way it leaves, and
    the solver object it ends with. *)
Definition M (A : Type) : Type :=
  gemini_solver.GeminiSolver ->
  list Event * Flow A * gemini_solver.GeminiSolver.

Definition ret {A} (a : A) : M A := fun s => ([], Next a, s).

Definition seq {A B} (m : M A) (k : A -> M B) : M B :=
  fun s =>
    match m s with
    | (tr, Next a, s') =>
        let '(tr', r, s'') := k a s' in (tr ++ tr', r, s'')
    | (tr, Exit c, s') => (tr, Exit c, s')
    end.

Definition emit (e : Event) : M unit := fun s => ([e], Next tt, s).
Definition leave {A} (c : Control) : M A := fun s => ([], Exit c, s).
Definition log (line : string) : M unit := emit (Log line).

Declare Scope loop_scope.
Notation "x <~ m ;; k" := (seq m (fun x => k))
  (at level 61, m at next level, right associativity) : loop_scope.
Notation "m ;;; k" := (seq m (fun _ => k))
  (at level 61, right associativity) : loop_scope.
Local Open Scope loop_scope.

(** *** What the page answers during one turn of the loop *)

Record Button := {
  b_displayed : result bool;       (* is_displayed() *)
  b_enabled : result bool;         (* is_enabled() *)
  b_click : result unit            (* click() *)
}.

Record Popup := {
  p_displayed : result bool;       (* popup.is_displayed() *)
  p_button : result Button         (* popup.find_element(By.CSS_SELECTOR, ...) *)
}.

(** One turn of the inner polling loop. *)
Record Slice := {
  stop_in_wait : bool;             (* stop_event.is_set() *)
  finished_el : result bool;       (* find_elements(finished class) is non-empty *)
  close_btn : result (list Button);
  popup_els : result (list Popup);
  page : scraper.Page
}.

Record ActionControl := {
  a_text : result string;          (* action_button.text *)
  a_click : result unit;           (* action_button.click() *)
  a_script_click : result unit     (* execute_script("arguments[0].click();", ...) *)
}.

Record YesControl := {
  y_script_click : result unit;
  y_click : result unit
}.

(** One turn of [while True]. *)
Record Cycle := {
  stop_at_top : bool;
  config_writable : bool;
  slices : list Slice;
  service : gemini_solver.Call;
  clickable : Handle -> result unit;   (* wait.until(EC.element_to_be_clickable(h)) *)
  click : Handle -> result unit;       (* h.click() *)
  script_click : Handle -> result unit;
  (* booster mode *)
  booster_button : result (result unit);  (* presence wait; then its click() *)
  booster_enabled_wait : result unit;
  current_question : result unit;
  question_stale_wait : result unit;
  (* standard mode *)
  action_wait : result ActionControl;
  overlay_wait : result unit;
  yes_wait : result YesControl;
  stealth_delay : Z;                   (* random.uniform(min, max) *)
  stop_after_action : bool
}.

(** [f"{delay:.1f}"] for a delay in milliseconds. *)
Definition format_1f (ms : Z) : string :=
  let tenths := ((ms + 50) / 100)%Z in
  (NilZero.string_of_int (Z.to_int (tenths / 10)) ++ "."
   ++ NilZero.string_of_int (Z.to_int (tenths mod 10)))%string.

Section Loop.

Variable BeautifulSoup : string -> list scraper.Node.
Variable cfg : config.Settings.

(** [getattr(config, "BOOSTER", None) and config.BOOSTER.ENABLED] *)
Definition is_booster : bool := config.BOOSTER_ENABLED cfg.

(** [for btn in close_btn: ...], inside [try: ... except Exception: pass]. *)
Fixpoint click_close (btns : list Button) : M unit :=
  match btns with
  | [] => ret tt
  | btn :: rest =>
      match b_displayed btn with
      | Raise _ => ret tt
      | Ok false => click_close rest
      | Ok true =>
          match b_enabled btn with
          | Raise _ => ret tt
          | Ok false => click_close rest
          | Ok true =>
              match b_click btn with
              | Raise _ => ret tt
              | Ok _ =>
                  emit (Clicked CloseButton) ;;;
                  log "[ACTION] Clicked final 'Next' button to close quiz." ;;;
                  emit (Sleep 1000)            (* break *)
              end
          end
      end
  end.

(** "Check for Booster Finished State" *)
Definition booster_finished (sl : Slice) : M unit :=
  if is_booster then
    match finished_el sl with
    | Ok true =>
        log "[INFO] Booster Quiz Finished (Completion screen detected)." ;;;
        match close_btn sl with
        | Ok btns => click_close btns
        | Raise _ => ret tt
        end ;;;
        leave Return
    | _ => ret tt
    end
  else ret tt.

(** [for popup in popup_els: ...]; the [continue] after the click
    goes on with the next popup. *)
Fixpoint click_popups (popups : list Popup) : M unit :=
  match popups with
  | [] => ret tt
  | popup :: rest =>
      match p_displayed popup with
      | Raise _ => ret tt
      | Ok false => click_popups rest
      | Ok true =>
          match p_button popup with
          | Ok popup_btn =>
              match b_displayed popup_btn with
              | Ok true =>
                  log "[INFO] Booster Mode: Popup detected." ;;;
                  match b_click popup_btn with
                  | Ok _ =>
                      emit (Clicked PopupButton) ;;;
                      log "[ACTION] Booster Mode: Clicked popup button (Continue)." ;;;
                      emit (Sleep 1000)
                  | Raise _ => ret tt
                  end
              | _ => ret tt
              end
          | Raise _ => ret tt
          end ;;;
          click_popups rest
      end
  end.

(** "Check for Booster Popup" *)
Definition booster_popup (sl : Slice) : M unit :=
  if is_booster then
    match popup_els sl with
    | Ok popups => click_popups popups
    | Raise _ => ret tt
    end
  else ret tt.

(** The handlers around [scrape_quiz_data] other than the one for
    [TimeoutException]. *)
Definition scrape_failed (e : Exn) : M (option QuizData) :=
  if is_WebDriverException e then
    if contains "disconnected" (lower (msg e))
       || contains "no such window" (lower (msg e))
    then
      log "[INFO] Browser disconnected. Stopping automation." ;;;
      leave Return
    else
      log ("[ERROR] WebDriver error while scraping quiz data: " ++ msg e) ;;;
      leave Return
  else
    log ("[ERROR] Unexpected error while scraping quiz data: " ++ msg e) ;;;
    leave Return.

(** [while total_waited < original_timeout: ...]; [None] when the
    loop ends with [quiz_data] still [None]. *)
Fixpoint poll (per_attempt_timeout original_timeout total_waited : Z)
    (slices : list Slice) : M (option QuizData) :=
  if (total_waited <? original_timeout)%Z then
    match slices with
    | [] => leave Unfinished
    | sl :: rest =>
        emit (CheckStop (stop_in_wait sl)) ;;;
        if stop_in_wait sl then
          log ("[INFO] Stop signal received while waiting for next "
               ++ "question. Terminating automation loop.") ;;;
          leave Return
        else
          booster_finished sl ;;;
          booster_popup sl ;;;
          let mode := if is_booster then "booster" else "standard" in
          emit Scrape ;;;
          match scraper.scrape_quiz_data BeautifulSoup (page sl) mode with
          | Ok quiz_data => ret (Some quiz_data)
          | Raise e =>
              match cls e with
              | TimeoutException =>
                  poll per_attempt_timeout original_timeout
                    (total_waited + per_attempt_timeout)%Z rest
              | _ => scrape_failed e
              end
          end
    end
  else ret None.

(** "2. Ask Gemini for the answer".  [get_answer] returns a label
    whatever the service does, so the handler of the loop around the
    call has nothing to take. *)
Definition ask (quiz_data : QuizData) (w : gemini_solver.Call) : M string :=
  fun solver =>
    let r := gemini_solver.get_answer solver quiz_data w in
    ([Solve;
      Log ("[SOLVER] Gemini selected answer option: '"
           ++ gemini_solver.answer r ++ "'.")],
     Next (gemini_solver.answer r),
     gemini_solver.solver r).

(** "3. Click the chosen option": which element. *)
Definition choose (option_elements : dict Handle) (answer_letter : string)
  : M Handle :=
  match get option_elements answer_letter with
  | Some chosen_element => ret chosen_element
  | None =>
      match option_elements with
      | (fallback_label, chosen_element) :: _ =>
          log ("[INFO] Desired option '" ++ answer_letter ++ "' not found. "
               ++ "Falling back to option '" ++ fallback_label ++ "'.") ;;;
          ret chosen_element
      | [] =>
          log ("[ERROR] No option elements available to click. "
               ++ "Terminating automation loop.") ;;;
          leave Break
      end
  end.

Definition wait_clickable (c : Cycle) (chosen_element : Handle) : M unit :=
  match clickable c chosen_element with
  | Ok _ => ret tt
  | Raise e =>
      match cls e with
      | TimeoutException =>
          log ("[ERROR] Chosen option never became clickable. "
               ++ "Terminating automation loop.") ;;;
          leave Break
      | StaleElementReferenceException =>
          log "[WARN] Option element became stale (page updated). Re-scraping..." ;;;
          leave Continue
      | WebDriverError =>
          log ("[ERROR] WebDriver error while waiting for option to be "
               ++ "clickable: " ++ msg e) ;;;
          leave Break
      | OtherError => leave (Propagate e)
      end
  end.

Definition click_chosen (c : Cycle) (chosen_element : Handle) : M unit :=
  match click c chosen_element with
  | Ok _ => emit (Clicked (OptionCard chosen_element))
  | Raise e =>
      match cls e with
      | StaleElementReferenceException =>
          log "[WARN] Option element became stale during click. Re-scraping..." ;;;
          leave Continue
      | _ =>
          match script_click c chosen_element with
          | Ok _ => emit (Clicked (OptionCard chosen_element))
          | Raise e =>
              log ("[ERROR] Failed to click chosen option element: " ++ msg e) ;;;
              leave Break
          end
      end
  end.

(** A click with the JavaScript click as its fallback. *)
Definition click_action (a : ActionControl) (failure : string) : M unit :=
  match a_click a with
  | Ok _ => emit (Clicked ActionButton)
  | Raise _ =>
      match a_script_click a with
      | Ok _ => emit (Clicked ActionButton)
      | Raise e => log (failure ++ msg e) ;;; leave Break
      end
  end.

(** "Stop check after answering & clicking action button" and the
    [continue] after it. *)
Definition stop_check_after (c : Cycle) : M unit :=
  emit (CheckStop (stop_after_action c)) ;;;
  if stop_after_action c then
    log "[INFO] Stop signal received. Terminating automation loop." ;;;
    leave Break
  else leave Continue.

Definition booster_failed (e : Exn) : M unit :=
  match cls e with
  | TimeoutException =>
      log "[ERROR] Booster Mode: Timed out waiting for action button to be enabled." ;;;
      leave Break
  | _ =>
      log ("[ERROR] Booster Mode: Error clicking action button: " ++ msg e) ;;;
      leave Break
  end.

(** "BOOSTER MODE LOGIC" *)
Definition booster_action (c : Cycle) : M unit :=
  match booster_button c with
  | Raise e => booster_failed e
  | Ok action_button_click =>
      match booster_enabled_wait c with
      | Raise e => booster_failed e
      | Ok _ =>
          let current_question :=
            match current_question c with Ok _ => true | Raise _ => false end in
          match action_button_click with
          | Raise e => booster_failed e
          | Ok _ =>
              emit (Clicked ActionButton) ;;;
              log "[ACTION] Booster Mode: Clicked Next/Submit button." ;;;
              (if current_question then
                 match question_stale_wait c with
                 | Ok _ => ret tt
                 | Raise e =>
                     match cls e with
                     | TimeoutException => ret tt
                     | _ => booster_failed e
                     end
                 end
               else ret tt) ;;;
              emit (Sleep 1000)
          end
      end
  end.

Definition confirmation_failed (e : Exn) : M unit :=
  match cls e with
  | TimeoutException =>
      log "[ERROR] Confirmation popup did not appear in time."
  | OtherError =>
      log ("[ERROR] Error while clicking final YES button: " ++ msg e)
  | _ =>
      log ("[ERROR] WebDriver error during submission confirmation: " ++ msg e)
  end.

Definition confirm_submission (c : Cycle) : M unit :=
  match overlay_wait c with
  | Raise e => confirmation_failed e
  | Ok _ =>
      match yes_wait c with
      | Raise e => confirmation_failed e
      | Ok yes_button =>
          match y_script_click yes_button with
          | Ok _ =>
              emit (Clicked YesButton) ;;;
              log "[INFO] Quiz submitted successfully."
          | Raise _ =>
              match y_click yes_button with
              | Ok _ =>
                  emit (Clicked YesButton) ;;;
                  log "[INFO] Quiz submitted successfully."
              | Raise e => confirmation_failed e
              end
          end
      end
  end.

(** "STANDARD MODE LOGIC" *)
Definition standard_action (c : Cycle) : M unit :=
  action_button <~
    match action_wait c with
    | Ok a => ret a
    | Raise e =>
        match cls e with
        | TimeoutException =>
            log "[ERROR] Could not find the action button after selecting an option." ;;;
            leave Break
        | OtherError => leave (Propagate e)
        | _ =>
            log ("[ERROR] WebDriver error while locating action button: " ++ msg e) ;;;
            leave Break
        end
    end ;;
  action_text <~
    match a_text action_button with
    | Ok t => ret (strip t)
    | Raise e => leave (Propagate e)
    end ;;
  log ("[ACTION] Action button text: '" ++ action_text ++ "'") ;;;
  if String.eqb action_text config.NEXT_BUTTON_TEXT then
    click_action action_button "[ERROR] Failed to click 'Next Question' button: " ;;;
    emit (Sleep 500) ;;;
    (if config.STEALTH_ENABLED cfg then
       let delay := stealth_delay c in
       log ("[INFO] Stealth Mode: pausing for " ++ format_1f delay
            ++ " seconds...") ;;;
       emit (Sleep delay)
     else ret tt) ;;;
    stop_check_after c
  else if String.eqb action_text config.SUBMIT_BUTTON_TEXT then
    log "[ACTION] Submit button detected. Submitting quiz..." ;;;
    click_action action_button "[ERROR] Failed to click 'Submit Quiz' button: " ;;;
    confirm_submission c ;;;
    leave Break
  else
    log ("[INFO] Unrecognized action button text '" ++ action_text ++ "'. "
         ++ "Clicking it anyway and continuing.") ;;;
    click_action action_button "[ERROR] Failed to click unrecognized action button: " ;;;
    emit (Sleep 500) ;;;
    stop_check_after c.

(** The body of [while True], in its four parts: wait for the
    question, ask for the answer and pick the element, click it, and
    press the action button. *)
Definition find_question (c : Cycle) : M QuizData :=
  emit (CheckStop (stop_at_top c)) ;;;
  if stop_at_top c then
    log ("[INFO] Stop signal received before scraping next question. "
         ++ "Terminating automation loop.") ;;;
    leave Break
  else
    let original_timeout := config.DEFAULT_WAIT_TIMEOUT cfg in
    let per_attempt_timeout :=
      if config_writable c then 1000%Z else original_timeout in
    quiz_data <~ poll per_attempt_timeout original_timeout 0 (slices c) ;;
    match quiz_data with
    | None =>
        log ("[ERROR] Timed out waiting for question/options. "
             ++ "Terminating automation loop.") ;;;
        leave Break
    | Some quiz_data => ret quiz_data
    end.

Definition select (c : Cycle) (quiz_data : QuizData) : M Handle :=
  answer_letter <~ ask quiz_data (service c) ;;
  choose (option_elements quiz_data) answer_letter.

Definition click_option (c : Cycle) (chosen_element : Handle) : M unit :=
  wait_clickable c chosen_element ;;;
  click_chosen c chosen_element.

Definition advance (c : Cycle) : M unit :=
  if is_booster then booster_action c else standard_action c.

Definition cycle (c : Cycle) : M unit :=
  quiz_data <~ find_question c ;;
  chosen_element <~ select c quiz_data ;;
  click_option c chosen_element ;;;
  advance c.

(** [while True], over the recorded turns. *)
Fixpoint while_true (script : list Cycle) : M unit :=
  match script with
  | [] => leave Unfinished
  | c :: rest =>
      fun solver =>
        match cycle c solver with
        | (tr, Next _, solver') | (tr, Exit Continue, solver') =>
            let '(tr', r, solver'') := while_true rest solver' in
            (tr ++ tr', r, solver'')
        | stopped => stopped
        end
  end.

Definition finished : Event := Log "[INFO] Automation loop finished.".

(** [run_solver_loop]: the events of the run, and whether the
    recorded turns sufficed for it to return. *)
Definition run_solver_loop (driver_launched : bool) (script : list Cycle)
  : list Event * bool :=
  if negb (truthy (config.API_KEY cfg))
     || String.eqb (config.API_KEY cfg) "YOUR_API_KEY_HERE"
  then
    ([Log ("[ERROR] Google Gemini API key is not set or is using the placeholder. "
           ++ "Please update it in config.py before running.")], true)
  else if negb driver_launched then
    ([Log ("[ERROR] Browser has not been launched yet. "
           ++ "Please click 'Launch Chrome' before starting the solver.")], true)
  else
    match gemini_solver.__init__ (config.API_KEY cfg)
            (config.GEMINI_MODEL_NAME cfg)
            (config.API_RATE_LIMIT_INTERVAL cfg) with
    | None =>
        ([Log ("[ERROR] Failed to initialize GeminiSolver: "
               ++ "API key is required for GeminiSolver.");
          finished], true)
    | Some solver =>
        let body :=
          log "[INFO] Connected to existing Chrome WebDriver." ;;;
          log "[INFO] Make sure the quiz page is open and a quiz is active." ;;;
          log "[INFO] Automation loop started. Use the GUI to stop it." ;;;
          log ("[DEBUG] Config State: BOOSTER.ENABLED = "
               ++ (if is_booster then "True" else "False")) ;;;
          (if is_booster then
             log ("[DEBUG] Booster Selectors: Question='"
                  ++ config.BOOSTER_QUESTION_CLASS ++ "', Button='"
                  ++ config.BOOSTER_ACTION_BUTTON_SELECTOR ++ "'")
           else ret tt) ;;;
          while_true script in
        match body solver with
        | (tr, Exit (Propagate e), _) =>
            (tr ++ [Log ("[ERROR] Unexpected exception in automation loop: "
                         ++ msg e);
                    finished], true)
        | (tr, Exit Unfinished, _) => (tr, false)
        | (tr, _, _) => (tr ++ [finished], true)
        end
    end.

End Loop.

End main.

(** ** What is asked of a run about cancellation

    A run is watched event by event.  The phases tell what has
    happened since the signal was last looked at. *)

Module Watch.

Import main.

Inductive Phase :=
| Unchecked    (* not looked at since the last scrape began, or never *)
| Checked      (* looked at and found clear; no scrape begun since *)
| Acted        (* the action button was clicked; not looked at since *)
| Observed     (* looked at and found set; the stop line is due *)
| Announced    (* the stop line is written; the closing line is due *)
| Closed.      (* the closing line is written *)

Definition is_stop_line (line : string) : bool :=
  String.eqb line
    "[INFO] Stop signal received before scraping next question. Terminating automation loop."
  || String.eqb line
    "[INFO] Stop signal received while waiting for next question. Terminating automation loop."
  || String.eqb line
    "[INFO] Stop signal received. Terminating automation loop.".

Definition is_closing_line (line : string) : bool :=
  String.eqb line "[INFO] Automation loop finished.".

(** The phase after an event, or [None] when the event is not allowed
    in the phase. *)
Definition step (p : Phase) (e : Event) : option Phase :=
  match p, e with
  | Observed, Log line => if is_stop_line line then Some Announced else None
  | Announced, Log line => if is_closing_line line then Some Closed else None
  | (Observed | Announced | Closed), _ => None
  | _, Log _ => Some p
  | _, Sleep _ => Some p
  | _, CheckStop true => Some Observed
  | _, CheckStop false => Some Checked
  | Checked, Scrape => Some Unchecked
  | Checked, Clicked (PopupButton | CloseButton) => Some Checked
  | Unchecked, Solve => Some Unchecked
  | Unchecked, Clicked (OptionCard _) => Some Unchecked
  | Unchecked, Clicked ActionButton => Some Acted
  | Acted, Clicked YesButton => Some Acted
  | _, _ => None
  end.

Fixpoint watch (p : Phase) (tr : list Event) : option Phase :=
  match tr with
  | [] => Some p
  | e :: rest =>
      match step p e with
      | Some p' => watch p' rest
      | None => None
      end
  end.

(** The phases in which the loop is at work. *)
Definition is_open (p : Phase) : bool :=
  match p with
  | Unchecked | Checked | Acted => true
  | _ => false
  end.

(** The phases in which a piece of the loop may leave in a given way:
    only [break] and [return] may follow a written stop line. *)
Definition settled (c : Control) (p : Phase) : bool :=
  match c, p with
  | (Break | Return), Announced => true
  | _, _ => is_open p
  end.

(** A piece of code started in phase [pre] causes allowed events only;
    it ends in a phase that satisfies [post] with its value, or leaves
    in a phase in which it may. *)
Definition keeps {A} (pre : Phase) (m : M A) (post : A -> Phase -> Prop)
  : Prop :=
  forall s,
    exists q,
      watch pre (fst (fst (m s))) = Some q
      /\ match snd (fst (m s)) with
         | Next a => post a q
         | Exit c => settled c q = true
         end.

(** The answers of the checks in a trace are those of a signal raised
    just before the event at position [t]: clear before, set from then
    on.  [i] is the position of the first event of [tr]. *)
Fixpoint raised_at (t i : nat) (tr : list Event) : bool :=
  match tr with
  | [] => true
  | CheckStop b :: rest => Bool.eqb b (t <=? i) && raised_at t (S i) rest
  | _ :: rest => raised_at t (S i) rest
  end.

(** How many action-button clicks a phase still allows before the
    signal is looked at again. *)
Definition budget (p : Phase) : nat :=
  match p with
  | Unchecked | Checked => 1
  | _ => 0
  end.

Definition is_click (e : Event) : bool :=
  match e with Clicked _ => true | _ => false end.

Definition is_action_click (e : Event) : bool :=
  match e with Clicked ActionButton => true | _ => false end.

(** The number of events from position [t] on that satisfy [f]. *)
Definition count_from (f : Event -> bool) (t : nat) (tr : list Event) : nat :=
  List.length (filter f (skipn t tr)).

End Watch.

(** ** Sample pages *)

Module Samples.

Import Py.
Import scraper.

Definition timeout : Exn := {| cls := TimeoutException; msg := "Message: " |}.

(** An element holding text and no image. *)
Definition element (content : string) : Element :=
  {| innerHTML := Ok (Some content); text := Ok content; imgs := Ok [] |}.

(** An option card: its label box and its option text. *)
Definition card (id : Handle) (label content : string) : Card :=
  {| card_id := id;
     label_text := Ok label;
     option_text := Ok (element content);
     card_element := element (label ++ " " ++ content) |}.

(** A standard-mode page showing a question and option cards. *)
Definition quiz_page (q : string) (cards : list Card) : Page :=
  {| visible_element := fun c =>
       if String.eqb c config.QUESTION_CLASS then Ok (element q)
       else Raise timeout;
     present_elements := fun c =>
       if String.eqb c config.OPTION_CARD_CLASS then Ok cards
       else Raise timeout |}.

(** The cards of B and then A, in this order in the document. *)
Definition page_B_then_A : Page :=
  quiz_page "2+2=?" [card 1 "b" "4"; card 2 "A" "3"].

(** Cards none of which carries a supported label. *)
Definition page_without_labels : Page :=
  quiz_page "2+2=?" [card 1 "E" "4"; card 2 "" "3"].

(** The cards of A and C; B and D are not on the page. *)
Definition page_A_and_C : Page :=
  quiz_page "2+2=?" [card 1 "A" "3"; card 3 "C" "5"].

(** The four cards of a question. *)
Definition page_A_to_D : Page :=
  quiz_page "2+2=?"
    [card 1 "A" "3"; card 2 "B" "4"; card 3 "C" "5"; card 4 "D" "6"].

Definition stale : Exn :=
  {| cls := StaleElementReferenceException;
     msg := "Message: stale element reference" |}.

(** A key is set; the rest is as in config.py. *)
Definition settings : config.Settings :=
  {| config.API_KEY := "key";
     config.GEMINI_MODEL_NAME := "gemini-2.5-flash";
     config.API_RATE_LIMIT_INTERVAL := 2000;
     config.DEFAULT_WAIT_TIMEOUT := 300000;
     config.STEALTH_ENABLED := false;
     config.MIN_DELAY_SECONDS := 5000;
     config.MAX_DELAY_SECONDS := 20000;
     config.BOOSTER_ENABLED := false |}.

(** The service answers with a text after 300 ms. *)
Definition answering (text : string) : gemini_solver.Call :=
  {| gemini_solver.now := 10000;
     gemini_solver.oversleep := 0;
     gemini_solver.reply := fun _ => gemini_solver.Returns (Some text);
     gemini_solver.latency := 300 |}.

Definition next_button : main.ActionControl :=
  {| main.a_text := Ok "Next Question";
     main.a_click := Ok tt;
     main.a_script_click := Ok tt |}.

(** A turn of the loop in standard mode: the page is there at the
    first look, the service answers [text], waiting for the chosen
    card gives [wait], every click goes through, the action button
    reads "Next Question", and the stop signal is found clear before
    the scrape and as [stop_after] after the action. *)
Definition turn (p : Page) (text : string) (wait : result unit)
    (stop_after : bool) : main.Cycle :=
  {| main.stop_at_top := false;
     main.config_writable := true;
     main.slices :=
       [{| main.stop_in_wait := false;
           main.finished_el := Ok false;
           main.close_btn := Ok [];
           main.popup_els := Ok [];
           main.page := p |}];
     main.service := answering text;
     main.clickable := fun _ => wait;
     main.click := fun _ => Ok tt;
     main.script_click := fun _ => Ok tt;
     main.booster_button := Raise timeout;
     main.booster_enabled_wait := Raise timeout;
     main.current_question := Raise timeout;
     main.question_stale_wait := Raise timeout;
     main.action_wait := Ok next_button;
     main.overlay_wait := Raise timeout;
     main.yes_wait := Raise timeout;
     main.stealth_delay := 0;
     main.stop_after_action := stop_after |}.

Definition intercepted : Exn :=
  {| cls := WebDriverError;
     msg := "Message: element click intercepted" |}.

(** The same turn, with the answers of [click()] and of the JavaScript
    click on the chosen card given. *)
Definition turn_clicking (p : Page) (text : string)
    (direct script : result unit) : main.Cycle :=
  let c := turn p text (Ok tt) false in
  {| main.stop_at_top := main.stop_at_top c;
     main.config_writable := main.config_writable c;
     main.slices := main.slices c;
     main.service := main.service c;
     main.clickable := main.clickable c;
     main.click := fun _ => direct;
     main.script_click := fun _ => script;
     main.booster_button := main.booster_button c;
     main.booster_enabled_wait := main.booster_enabled_wait c;
     main.current_question := main.current_question c;
     main.question_stale_wait := main.question_stale_wait c;
     main.action_wait := main.action_wait c;
     main.overlay_wait := main.overlay_wait c;
     main.yes_wait := main.yes_wait c;
     main.stealth_delay := main.stealth_delay c;
     main.stop_after_action := main.stop_after_action c |}.

(** The solver object a run starts with. *)
Definition fresh_solver : gemini_solver.GeminiSolver :=
  {| gemini_solver.api_key := "key";
     gemini_solver.model_name := "gemini-2.5-flash";
     gemini_solver.rate_limit_interval := 2000;
     gemini_solver._last_request_time := 0 |}.

(** Handles for A and C only. *)
Definition payload_A_and_C : QuizData :=
  {| question := [Text "2+2=?"];
     options := [("A", [Text "3"]); ("C", [Text "5"])];
     option_elements := [("A", 1); ("C", 3)] |}.

(** No handle at all. *)
Definition payload_without_handles : QuizData :=
  {| question := [Text "2+2=?"];
     options := [("A", [Text "3"])];
     option_elements := [] |}.

End Samples.

(** ** Words for what the extractor returns *)

Module Content.

Import PyStr.
Import Py.
Import scraper.

(** No whitespace in the string. *)
Fixpoint solid (s : string) : bool :=
  match s with
  | EmptyString => true
  | String c rest => negb (isspace c) && solid rest
  end.

(** Words: not empty, no whitespace. *)
Definition words (l : list string) : Prop :=
  Forall (fun w => w <> EmptyString /\ solid w = true) l.

(** The screenshots of the images that are displayed and can be
    captured, in the order of the images. *)
Definition captured (images : list Img) : list string :=
  flat_map
    (fun img =>
       match is_displayed img, screenshot_as_png img with
       | Ok true, Ok png => [png]
       | _, _ => []
       end)
    images.

Definition is_text (f : Fragment) : bool :=
  match f with Text t => truthy t | Image _ => false end.

(** The element whose content stands for a card: its option text, or
    the card itself when there is none. *)
Definition content_element (card : Card) : Element :=
  match option_text card with
  | Ok e => e
  | Raise _ => card_element card
  end.

(** The last card of the document that carries a label. *)
Definition last_with_label (label : string) (cards : list Card) : option Card :=
  fold_left
    (fun found card =>
       match card_label card with
       | Some l => if String.eqb l label then Some card else found
       | None => found
       end)
    cards None.

End Content.

(** ** app_webview.py: text handed to the page *)

Module app_webview.

(** [s.replace(old, new)] for a pattern [old] of one character. *)
Fixpoint replace_char (old : ascii) (new : string) (s : string) : string :=
  match s with
  | EmptyString => EmptyString
  | String c rest =>
      if Ascii.eqb c old then (new ++ replace_char old new rest)%string
      else String c (replace_char old new rest)
  end.

Definition backslash : ascii := "\".
Definition quote : ascii := "'".
Definition CR : ascii := "013".
Definition LF : ascii := "010".
Definition double_quote : ascii := "034".

Definition _js_escape (text : string) : string :=
  let text := replace_char backslash "\\" text in
  let text := replace_char quote "\'" text in
  let text := replace_char CR "" text in
  replace_char LF "\n" text.

(** How JavaScript reads the characters between the quotes of a
    single-quoted string literal: [None] when the literal ends early
    at a quote, is broken by a line end, or ends in a lone backslash;
    the escapes read are those of a backslash, of the quotes and of
    the control characters n, r, t, b, f, v. *)
Fixpoint js_literal_value (body : string) : option string :=
  match body with
  | EmptyString => Some EmptyString
  | String c rest =>
      if Ascii.eqb c backslash then
        match rest with
        | EmptyString => None
        | String d rest' =>
            let read (x : ascii) :=
              match js_literal_value rest' with
              | Some v => Some (String x v)
              | None => None
              end in
            if Ascii.eqb d backslash then read backslash
            else if Ascii.eqb d quote then read quote
            else if Ascii.eqb d double_quote then read double_quote
            else if Ascii.eqb d "n" then read LF
            else if Ascii.eqb d "r" then read CR
            else if Ascii.eqb d "t" then read "009"%char
            else if Ascii.eqb d "b" then read "008"%char
            else if Ascii.eqb d "f" then read "012"%char
            else if Ascii.eqb d "v" then read "011"%char
            else None
        end
      else if Ascii.eqb c quote || Ascii.eqb c LF || Ascii.eqb c CR then None
      else
        match js_literal_value rest with
        | Some v => Some (String c v)
        | None => None
        end
  end.

End app_webview.

(** ** config.json: config_manager.py, the overrides of config.py and
    the two settings calls of app_webview.py *)

Module config_manager.

Import PyStr.
Import Py.
Local Open Scope py_scope.

(** A value of the settings form or of [config.json], as Python holds
    it.  A number is a duration in milliseconds; [Other] stands for a
    list or an object, of which the conversions only see the truth
    value and the text that [str] gives. *)
Inductive Value :=
| Str (s : string)
| Num (x : Z)
| Bool (b : bool)
| Null
| Other (truth : bool) (text : string).

(** What [config.json] is when it is read: not there, not readable as
    JSON, an object, or another JSON value. *)
Inductive File :=
| Missing
| Unreadable
| Object (d : dict Value)
| NotAnObject.

(** The name [_data] of the module [config], which a reload does not
    unbind. *)
Inductive Binding :=
| Unbound
| BoundObject (d : dict Value)
| BoundOther.

(** The seven values that [read_settings] reads from the module. *)
Record Values := {
  API_KEY : Value;
  GEMINI_MODEL_NAME : Value;
  API_RATE_LIMIT_INTERVAL : Value;
  STEALTH_ENABLED : Value;
  MIN_DELAY_SECONDS : Value;
  MAX_DELAY_SECONDS : Value;
  BOOSTER_ENABLED : Value
}.

Definition TypeError : Exn := {| cls := OtherError; msg := "TypeError" |}.
Definition ValueError : Exn := {| cls := OtherError; msg := "ValueError" |}.
Definition AttributeError : Exn := {| cls := OtherError; msg := "AttributeError" |}.

(** [d.get(k, default)] *)
Definition get_or (d : dict Value) (k : string) (default : Value) : Value :=
  match get d k with Some v => v | None => default end.

(** [bool(v)] *)
Definition bool_ (v : Value) : bool :=
  match v with
  | Str s => truthy s
  | Num x => negb (x =? 0)%Z
  | Bool b => b
  | Null => false
  | Other truth _ => truth
  end.

Section Conversions.

(** The number a string denotes for [float], if it denotes one, and
    the text [str] gives for a number. *)
Variable float_of_str : string -> option Z.
Variable str_of_num : Z -> string.

(** [str(v)] *)
Definition str (v : Value) : string :=
  match v with
  | Str s => s
  | Num x => str_of_num x
  | Bool true => "True"
  | Bool false => "False"
  | Null => "None"
  | Other _ text => text
  end.

(** [float(v)] *)
Definition float (v : Value) : result Z :=
  match v with
  | Str s =>
      match float_of_str s with
      | Some x => Ok x
      | None => Raise ValueError
      end
  | Num x => Ok x
  | Bool b => Ok (if b then 1000 else 0)%Z
  | Null | Other _ _ => Raise TypeError
  end.

(** [ConfigManager._read_json]: [None] stands for a JSON value that
    is not an object. *)
Definition _read_json (file : File) : option (dict Value) :=
  match file with
  | Missing => Some []
  | Unreadable => Some []
  | Object d => Some d
  | NotAnObject => None
  end.

(** [ConfigManager.update_settings]: the file it leaves, when it
    returns.  The file is written last, so a call that raises has not
    touched it. *)
Definition update_settings (file : File) (settings : dict Value) : result File :=
  match _read_json file with
  | None => Raise TypeError
  | Some current_data =>
      let current_data :=
        set current_data "API_KEY" (Str (str (get_or settings "API_KEY" (Str "")))) in
      let current_data :=
        set current_data "GEMINI_MODEL_NAME"
          (Str (str (get_or settings "GEMINI_MODEL_NAME" (Str "")))) in
      x <- float (get_or settings "API_RATE_LIMIT_INTERVAL" (Num 0)) ;;
      let current_data := set current_data "API_RATE_LIMIT_INTERVAL" (Num x) in
      let current_data :=
        set current_data "STEALTH_ENABLED"
          (Bool (bool_ (get_or settings "STEALTH_ENABLED" (Bool false)))) in
      x <- float (get_or settings "MIN_DELAY_SECONDS" (Num 5000)) ;;
      let current_data := set current_data "MIN_DELAY_SECONDS" (Num x) in
      x <- float (get_or settings "MAX_DELAY_SECONDS" (Num 20000)) ;;
      let current_data := set current_data "MAX_DELAY_SECONDS" (Num x) in
      let current_data :=
        set current_data "BOOSTER_ENABLED"
          (Bool (bool_ (get_or settings "BOOSTER_ENABLED" (Bool false)))) in
      Ok (Object current_data)
  end.

(** The body of the module [config], run again by [reload(config)]:
    the values it leaves, or the exception it raises, and the binding
    of [_data] after it. *)
Definition reload (ns : Binding) (file : File) : result Values * Binding :=
  let API_KEY := Str "YOUR_API_KEY_HERE" in
  let GEMINI_MODEL_NAME := Str "gemini-2.5-flash" in
  let API_RATE_LIMIT_INTERVAL := Num 2000 in
  let '(API_KEY, GEMINI_MODEL_NAME, API_RATE_LIMIT_INTERVAL, ns) :=
    match file with
    | Missing => (API_KEY, GEMINI_MODEL_NAME, API_RATE_LIMIT_INTERVAL, ns)
    | Unreadable => (API_KEY, GEMINI_MODEL_NAME, API_RATE_LIMIT_INTERVAL, ns)
    | Object _data =>
        (get_or _data "API_KEY" API_KEY,
         get_or _data "GEMINI_MODEL_NAME" GEMINI_MODEL_NAME,
         get_or _data "API_RATE_LIMIT_INTERVAL" API_RATE_LIMIT_INTERVAL,
         BoundObject _data)
    | NotAnObject =>
        (API_KEY, GEMINI_MODEL_NAME, API_RATE_LIMIT_INTERVAL, BoundOther)
    end in
  match ns with
  | Unbound =>
      (Ok {| API_KEY := API_KEY;
             GEMINI_MODEL_NAME := GEMINI_MODEL_NAME;
             API_RATE_LIMIT_INTERVAL := API_RATE_LIMIT_INTERVAL;
             STEALTH_ENABLED := Bool false;
             MIN_DELAY_SECONDS := Num 5000;
             MAX_DELAY_SECONDS := Num 20000;
             BOOSTER_ENABLED := Bool false |}, ns)
  | BoundObject _data =>
      (Ok {| API_KEY := API_KEY;
             GEMINI_MODEL_NAME := GEMINI_MODEL_NAME;
             API_RATE_LIMIT_INTERVAL := API_RATE_LIMIT_INTERVAL;
             STEALTH_ENABLED := get_or _data "STEALTH_ENABLED" (Bool false);
             MIN_DELAY_SECONDS := get_or _data "MIN_DELAY_SECONDS" (Num 5000);
             MAX_DELAY_SECONDS := get_or _data "MAX_DELAY_SECONDS" (Num 20000);
             BOOSTER_ENABLED := get_or _data "BOOSTER_ENABLED" (Bool false) |}, ns)
  | BoundOther => (Raise AttributeError, ns)
  end.

(** [ConfigManager.read_settings] *)
Definition read_settings (ns : Binding) (file : File)
  : result (dict Value) * Binding :=
  let '(r, ns) := reload ns file in
  (config <- r ;;
   Ok [("API_KEY", API_KEY config);
       ("GEMINI_MODEL_NAME", GEMINI_MODEL_NAME config);
       ("API_RATE_LIMIT_INTERVAL", API_RATE_LIMIT_INTERVAL config);
       ("STEALTH_ENABLED", STEALTH_ENABLED config);
       ("MIN_DELAY_SECONDS", MIN_DELAY_SECONDS config);
       ("MAX_DELAY_SECONDS", MAX_DELAY_SECONDS config);
       ("BOOSTER_ENABLED", BOOSTER_ENABLED config)],
   ns).

(** [Api.load_settings] *)
Definition load_settings (ns : Binding) (file : File) : dict Value * Binding :=
  let '(r, ns) := read_settings ns file in
  (match r with
   | Ok settings =>
       [("apiKey", get_or settings "API_KEY" (Str ""));
        ("modelName", get_or settings "GEMINI_MODEL_NAME" (Str ""));
        ("rateLimitSeconds", get_or settings "API_RATE_LIMIT_INTERVAL" (Num 0));
        ("stealthEnabled", get_or settings "STEALTH_ENABLED" (Bool false));
        ("minDelaySeconds", get_or settings "MIN_DELAY_SECONDS" (Num 5000));
        ("maxDelaySeconds", get_or settings "MAX_DELAY_SECONDS" (Num 20000));
        ("boosterEnabled", get_or settings "BOOSTER_ENABLED" (Bool false))]
   | Raise e => [("error", Str ("Failed to read settings: " ++ msg e))]
   end, ns).

(** [Api.save_settings]: what it answers, and the file after it. *)
Definition save_settings (file : File) (settings_dict : dict Value)
  : dict Value * File :=
  let attempt :=
    rate <- float (get_or settings_dict "rateLimitSeconds" (Num 0)) ;;
    lo <- float (get_or settings_dict "minDelaySeconds" (Num 5000)) ;;
    hi <- float (get_or settings_dict "maxDelaySeconds" (Num 20000)) ;;
    let cleaned_settings :=
      [("API_KEY", Str (str (get_or settings_dict "apiKey" (Str ""))));
       ("GEMINI_MODEL_NAME", Str (str (get_or settings_dict "modelName" (Str ""))));
       ("API_RATE_LIMIT_INTERVAL", Num rate);
       ("STEALTH_ENABLED", Bool (bool_ (get_or settings_dict "stealthEnabled" (Bool false))));
       ("MIN_DELAY_SECONDS", Num lo);
       ("MAX_DELAY_SECONDS", Num hi);
       ("BOOSTER_ENABLED", Bool (bool_ (get_or settings_dict "boosterEnabled" (Bool false))))] in
    update_settings file cleaned_settings in
  match attempt with
  | Ok file' => ([("status", Str "success")], file')
  | Raise e => ([("status", Str "error"); ("message", Str (msg e))], file)
  end.

End Conversions.

(** The keys that [update_settings] writes. *)
Definition written : list string :=
  ["API_KEY"; "GEMINI_MODEL_NAME"; "API_RATE_LIMIT_INTERVAL"; "STEALTH_ENABLED";
   "MIN_DELAY_SECONDS"; "MAX_DELAY_SECONDS"; "BOOSTER_ENABLED"].

End config_manager.

(** ** Sample settings *)

Module SettingsSamples.

Import Py.
Import config_manager.

(** [float] and [str] on the few numerals the samples use. *)
Definition float_of_str (s : string) : option Z :=
  if String.eqb s "2.5" then Some 2500%Z
  else if String.eqb s "7" then Some 7000%Z
  else if String.eqb s "30" then Some 30000%Z
  else None.

Definition str_of_num (x : Z) : string :=
  if (x =? 2500)%Z then "2.5" else "0.0".

(** The form as the page sends it, the durations typed as text. *)
Definition form : dict Value :=
  [("apiKey", Str "k-123");
   ("modelName", Str "gemini-2.5-flash");
   ("rateLimitSeconds", Str "2.5");
   ("stealthEnabled", Bool true);
   ("minDelaySeconds", Str "7");
   ("maxDelaySeconds", Str "30");
   ("boosterEnabled", Bool false)].

(** A [config.json] with an entry of its own and an old key. *)
Definition old_file : File :=
  Object [("THEME", Str "dark"); ("API_KEY", Str "old"); ("STEALTH_ENABLED", Bool false)].

End SettingsSamples.

(** ** More sample pages and turns *)

Module MoreSamples.

Import Py.
Import scraper.

(** A page on which the question is not there yet. *)
Definition blank_page : Page :=
  {| visible_element := fun _ => Raise Samples.timeout;
     present_elements := fun _ => Raise Samples.timeout |}.

Definition waiting : main.Slice :=
  {| main.stop_in_wait := false;
     main.finished_el := Ok false;
     main.close_btn := Ok [];
     main.popup_els := Ok [];
     main.page := blank_page |}.

(** The settings of the samples with a wait budget of 2.5 seconds. *)
Definition impatient : config.Settings :=
  {| config.API_KEY := "key";
     config.GEMINI_MODEL_NAME := "gemini-2.5-flash";
     config.API_RATE_LIMIT_INTERVAL := 2000;
     config.DEFAULT_WAIT_TIMEOUT := 2500;
     config.STEALTH_ENABLED := false;
     config.MIN_DELAY_SECONDS := 5000;
     config.MAX_DELAY_SECONDS := 20000;
     config.BOOSTER_ENABLED := false |}.

(** The settings of the samples in booster mode. *)
Definition boosted : config.Settings :=
  {| config.API_KEY := "key";
     config.GEMINI_MODEL_NAME := "gemini-2.5-flash";
     config.API_RATE_LIMIT_INTERVAL := 2000;
     config.DEFAULT_WAIT_TIMEOUT := 300000;
     config.STEALTH_ENABLED := false;
     config.MIN_DELAY_SECONDS := 5000;
     config.MAX_DELAY_SECONDS := 20000;
     config.BOOSTER_ENABLED := true |}.

(** A turn with the slices and the action control given; the rest as
    in [Samples.turn]. *)
Definition turn_with (slices : list main.Slice) (action : result main.ActionControl)
  : main.Cycle :=
  let c := Samples.turn Samples.page_A_to_D "B" (Ok tt) false in
  {| main.stop_at_top := main.stop_at_top c;
     main.config_writable := main.config_writable c;
     main.slices := slices;
     main.service := main.service c;
     main.clickable := main.clickable c;
     main.click := main.click c;
     main.script_click := main.script_click c;
     main.booster_button := main.booster_button c;
     main.booster_enabled_wait := main.booster_enabled_wait c;
     main.current_question := main.current_question c;
     main.question_stale_wait := main.question_stale_wait c;
     main.action_wait := action;
     main.overlay_wait := main.overlay_wait c;
     main.yes_wait := main.yes_wait c;
     main.stealth_delay := main.stealth_delay c;
     main.stop_after_action := main.stop_after_action c |}.

Definition submit_button : main.ActionControl :=
  {| main.a_text := Ok " Submit Quiz ";
     main.a_click := Ok tt;
     main.a_script_click := Ok tt |}.

(** The completion screen of a booster quiz with one closing button. *)
Definition completed : main.Slice :=
  {| main.stop_in_wait := false;
     main.finished_el := Ok true;
     main.close_btn :=
       Ok [{| main.b_displayed := Ok true;
              main.b_enabled := Ok true;
              main.b_click := Ok tt |}];
     main.popup_els := Ok [];
     main.page := blank_page |}.

End MoreSamples.

(** ** Counting the events of a piece of the loop *)

Module Tally.

Import main.

Definition trace {A} (m : M A) (s : gemini_solver.GeminiSolver) : list Event :=
  fst (fst (m s)).

Definition flow {A} (m : M A) (s : gemini_solver.GeminiSolver) : Flow A :=
  snd (fst (m s)).

Definition count (f : Event -> bool) (tr : list Event) : nat :=
  List.length (filter f tr).

(** Whatever solver object the piece starts with, at most [n] of its
    events satisfy [f]. *)
Definition at_most {A} (f : Event -> bool) (n : nat) (m : M A) : Prop :=
  forall s, count f (trace m s) <= n.

Definition weight (b : bool) : nat := if b then 1 else 0.

Definition is_scrape (e : Event) : bool :=
  match e with Scrape => true | _ => false end.

Definition is_solve (e : Event) : bool :=
  match e with Solve => true | _ => false end.

Definition is_option_click (e : Event) : bool :=
  match e with Clicked (OptionCard _) => true | _ => false end.

(** The number of scrape attempts the wait budget allows when each
    attempt that times out uses up [per] of it. *)
Definition attempts (per original total : Z) : nat :=
  Z.to_nat ((original - total + per - 1) / per).

(** The events of [n] attempts that time out. *)
Fixpoint timed_out_attempts (n : nat) : list Event :=
  match n with
  | O => []
  | S n' => CheckStop false :: Scrape :: timed_out_attempts n'
  end.

End Tally.

(** * Properties *)

(** ** Characters and strings *)

Module PyStrFacts.

Import PyStr.

Ltac by_cases_on_char c :=
  destruct c as [[] [] [] [] [] [] [] []]; vm_compute; try reflexivity;
  try discriminate; auto.

Lemma space_not_word c : isspace c = true -> isword c = false.
Proof. by_cases_on_char c. Qed.

Lemma upper_char_space c : isspace (upper_char c) = isspace c.
Proof. by_cases_on_char c. Qed.

Lemma upper_lstrip s : upper (lstrip s) = lstrip (upper s).
Proof.
  induction s as [|c s IH]; simpl; [reflexivity|].
  rewrite upper_char_space.
  destruct (isspace c); [exact IH | reflexivity].
Qed.

Lemma upper_rstrip s : upper (rstrip s) = rstrip (upper s).
Proof.
  induction s as [|c s IH]; simpl; [reflexivity|].
  rewrite <- IH, upper_char_space.
  destruct (rstrip s); simpl; [|reflexivity].
  destruct (isspace c); reflexivity.
Qed.

Lemma upper_strip s : upper (strip s) = strip (upper s).
Proof. unfold strip. now rewrite upper_rstrip, upper_lstrip. Qed.

(** [rstrip] gives the empty string exactly on blank strings ... *)
Lemma rstrip_empty s : rstrip s = EmptyString -> blank s = true.
Proof.
  induction s as [|c s IH]; simpl; [reflexivity|].
  destruct (rstrip s) eqn:E; [|discriminate].
  destruct (isspace c); [intros _; now rewrite IH | discriminate].
Qed.

(** ... and keeps the first character of any other. *)
Lemma rstrip_head s : rstrip s <> EmptyString -> head (rstrip s) = head s.
Proof.
  destruct s as [|c s]; simpl; [reflexivity|].
  destruct (rstrip s); [|reflexivity].
  destruct (isspace c); [congruence | reflexivity].
Qed.

Lemma blank_head s c : blank s = true -> head s = Some c -> isspace c = true.
Proof.
  destruct s as [|d s]; simpl; [discriminate|].
  intros H [= <-]. now apply andb_true_iff in H.
Qed.

Lemma split_from_nonempty s cur : cur <> EmptyString -> split_from cur s <> [].
Proof.
  revert cur. induction s as [|c s IH]; intros cur Hcur; simpl.
  - destruct cur; congruence.
  - destruct (isspace c).
    + destruct cur; congruence.
    + apply IH. destruct cur; discriminate.
Qed.

Lemma append_assoc (a b c : string) : ((a ++ b) ++ c = a ++ b ++ c)%string.
Proof. induction a; simpl; congruence. Qed.

Lemma append_empty_r (a : string) : (a ++ "" = a)%string.
Proof. induction a; simpl; congruence. Qed.

Lemma length_append (a b : string) :
  String.length (a ++ b) = String.length a + String.length b.
Proof. induction a; simpl; congruence. Qed.

End PyStrFacts.

(** ** The answer selector *)

Module SolverFacts.

Import PyStr.
Import PyStrFacts.
Import Py.
Import gemini_solver.

Lemma not_ABCD_space c : isspace c = true -> in_ABCD c = false.
Proof. by_cases_on_char c. Qed.

Lemma ABCD_label c : in_ABCD c = true -> In (str1 c) ["A"; "B"; "C"; "D"].
Proof. by_cases_on_char c. Qed.

(** The search only looks at whether the preceding character is a
    word character. *)
Lemma re_search_token_prev p q s :
  isword_opt p = isword_opt q -> re_search_token p s = re_search_token q s.
Proof.
  destruct s as [|c s]; simpl; [reflexivity|].
  unfold word_boundary. now intros ->.
Qed.

Lemma re_search_token_blank s p : blank s = true -> re_search_token p s = None.
Proof.
  revert p. induction s as [|c s IH]; intros p; simpl; [reflexivity|].
  intros [Hc Hs]%andb_true_iff.
  rewrite (not_ABCD_space c Hc), andb_false_r. simpl. now apply IH.
Qed.

Lemma re_search_token_lstrip s p :
  isword_opt p = false -> re_search_token p (lstrip s) = re_search_token p s.
Proof.
  intros Hp. induction s as [|c s IH]; simpl; [reflexivity|].
  destruct (isspace c) eqn:Hc; [|reflexivity].
  rewrite (not_ABCD_space c Hc), andb_false_r. simpl.
  rewrite IH. apply re_search_token_prev.
  simpl. now rewrite (space_not_word c Hc).
Qed.

Lemma isword_head_rstrip s :
  isword_opt (head (rstrip s)) = isword_opt (head s).
Proof.
  destruct (rstrip s) eqn:E.
  - apply rstrip_empty in E. simpl.
    destruct (head s) as [c|] eqn:Hh; [|reflexivity].
    simpl. symmetry. apply space_not_word. now apply (blank_head s).
  - rewrite <- E. f_equal. apply rstrip_head. congruence.
Qed.

Lemma re_search_token_rstrip s p :
  re_search_token p (rstrip s) = re_search_token p s.
Proof.
  revert p. induction s as [|c s IH]; intros p; [reflexivity|].
  assert (Hhead := isword_head_rstrip s).
  simpl. destruct (rstrip s) as [|d r] eqn:E.
  - apply rstrip_empty in E.
    destruct (isspace c) eqn:Hc; simpl.
    + rewrite (not_ABCD_space c Hc), andb_false_r. simpl.
      symmetry. now apply re_search_token_blank.
    + simpl in Hhead. unfold word_boundary at 2 4. rewrite <- Hhead. simpl.
      rewrite (re_search_token_blank s _ E).
      destruct (_ && _); reflexivity.
  - change (re_search_token p (String c (String d r)))
      with (if word_boundary p (Some c) && in_ABCD c
               && word_boundary (Some c) (Some d)
            then Some c else re_search_token (Some c) (String d r)).
    rewrite <- (IH (Some c)).
    unfold word_boundary at 2 4. simpl in Hhead. rewrite <- Hhead.
    reflexivity.
Qed.

Lemma re_search_token_strip s :
  re_search_token None (strip s) = re_search_token None s.
Proof.
  unfold strip. rewrite re_search_token_rstrip.
  now apply re_search_token_lstrip.
Qed.

Lemma first_ABCD_lstrip s : first_ABCD (lstrip s) = first_ABCD s.
Proof.
  induction s as [|c s IH]; simpl; [reflexivity|].
  destruct (isspace c) eqn:Hc; [|reflexivity].
  now rewrite (not_ABCD_space c Hc).
Qed.

Lemma first_ABCD_rstrip s : first_ABCD (rstrip s) = first_ABCD s.
Proof.
  induction s as [|c s IH]; simpl; [reflexivity|].
  rewrite <- IH. destruct (rstrip s); [|reflexivity].
  destruct (isspace c) eqn:Hc; simpl; [|reflexivity].
  now rewrite (not_ABCD_space c Hc).
Qed.

Lemma first_ABCD_strip s : first_ABCD (strip s) = first_ABCD s.
Proof. unfold strip. now rewrite first_ABCD_rstrip, first_ABCD_lstrip. Qed.

Lemma re_search_token_ABCD s p c :
  re_search_token p s = Some c -> in_ABCD c = true.
Proof.
  revert p. induction s as [|d s IH]; intros p; simpl; [discriminate|].
  destruct (word_boundary p (Some d) && in_ABCD d
            && word_boundary (Some d) (head s)) eqn:E.
  - intros [= <-]. apply andb_true_iff in E as [E _].
    now apply andb_true_iff in E as [_ E].
  - apply IH.
Qed.

Lemma first_ABCD_ABCD s c : first_ABCD s = Some c -> in_ABCD c = true.
Proof.
  induction s as [|d s IH]; simpl; [discriminate|].
  destruct (in_ABCD d) eqn:E; [now intros [= <-] | exact IH].
Qed.

Lemma _extract_letter_in_alphabet raw_text :
  In (_extract_letter raw_text) ["A"; "B"; "C"; "D"].
Proof.
  unfold _extract_letter.
  destruct (negb (truthy raw_text)); [now left|].
  cbv zeta.
  destruct (re_search_token None _) eqn:E1.
  - apply ABCD_label. eapply re_search_token_ABCD. exact E1.
  - destruct (first_ABCD _) eqn:E2; [|now left].
    apply ABCD_label. eapply first_ABCD_ABCD. exact E2.
Qed.

(** *** The scanning functions find the least positions *)

Lemma char_at_middle pre c rest :
  char_at (pre ++ String c rest) (String.length pre) = Some c.
Proof.
  unfold char_at.
  pose proof (append_correct2 pre (String c rest) 0) as H.
  simpl in H. now rewrite <- H.
Qed.

Lemma char_at_after pre c rest :
  char_at (pre ++ String c rest) (String.length pre + 1) = head rest.
Proof.
  unfold char_at.
  replace (String.length pre + 1) with (1 + String.length pre) by lia.
  rewrite <- (append_correct2 pre (String c rest) 1).
  destruct rest; reflexivity.
Qed.

Lemma char_at_before pre c rest :
  (if String.length pre =? 0 then None
   else char_at (pre ++ String c rest) (String.length pre - 1))
  = last_char pre.
Proof.
  unfold last_char, char_at.
  destruct (String.length pre =? 0) eqn:E; [reflexivity|].
  apply Nat.eqb_neq in E.
  symmetry. apply append_correct1. lia.
Qed.

Lemma last_char_snoc pre c : last_char (pre ++ str1 c) = Some c.
Proof.
  unfold last_char, str1.
  rewrite length_append. simpl String.length.
  replace (String.length pre + 1 =? 0) with false
    by (symmetry; apply Nat.eqb_neq; lia).
  replace (String.length pre + 1 - 1) with (String.length pre) by lia.
  apply char_at_middle.
Qed.

Lemma snoc_append pre c rest :
  ((pre ++ str1 c) ++ rest = pre ++ String c rest)%string.
Proof. unfold str1. now rewrite append_assoc. Qed.

Lemma in_ABCD_word c : in_ABCD c = true -> isword c = true.
Proof. by_cases_on_char c. Qed.

Lemma standalone_at_middle pre c rest :
  standalone_at (pre ++ String c rest) (String.length pre)
  = word_boundary (last_char pre) (Some c) && in_ABCD c
    && word_boundary (Some c) (head rest).
Proof.
  unfold standalone_at, letter_at.
  rewrite char_at_middle, char_at_after, char_at_before.
  unfold word_boundary.
  change (isword_opt (Some c)) with (isword c).
  destruct (in_ABCD c) eqn:E.
  - rewrite (in_ABCD_word c E).
    destruct (isword_opt (last_char pre)), (isword_opt (head rest));
      reflexivity.
  - rewrite andb_false_r. reflexivity.
Qed.

Lemma re_search_token_first rest : forall pre,
  re_search_token (last_char pre) rest
  = match find (standalone_at (pre ++ rest))
            (List.seq (String.length pre) (String.length rest)) with
    | Some i => char_at (pre ++ rest) i
    | None => None
    end.
Proof.
  induction rest as [|c rest IH]; intros pre; [reflexivity|].
  cbn [re_search_token String.length List.seq find].
  rewrite standalone_at_middle.
  destruct (_ && _ && _).
  - now rewrite char_at_middle.
  - rewrite <- (last_char_snoc pre c), (IH (pre ++ str1 c)%string).
    rewrite snoc_append.
    unfold str1. rewrite length_append. simpl String.length.
    now rewrite Nat.add_1_r.
Qed.

Lemma first_ABCD_first rest : forall pre,
  first_ABCD rest
  = match find (letter_at (pre ++ rest))
            (List.seq (String.length pre) (String.length rest)) with
    | Some i => char_at (pre ++ rest) i
    | None => None
    end.
Proof.
  induction rest as [|c rest IH]; intros pre; [reflexivity|].
  cbn [first_ABCD String.length List.seq find].
  unfold letter_at at 1. rewrite char_at_middle.
  destruct (in_ABCD c).
  - now rewrite char_at_middle.
  - rewrite (IH (pre ++ str1 c)%string), snoc_append.
    unfold str1. rewrite length_append. simpl String.length.
    now rewrite Nat.add_1_r.
Qed.

Lemma letter_at_char s i :
  letter_at s i = true -> exists c, char_at s i = Some c.
Proof.
  unfold letter_at. destruct (char_at s i) as [c|]; [now exists c | discriminate].
Qed.

Lemma token_or_default s :
  match re_search_token None s with Some c => Some (str1 c) | None => None end
  = match first_position (standalone_at s) (String.length s) with
    | Some i => Some (label_at s i)
    | None => None
    end.
Proof.
  change (re_search_token None s) with (re_search_token (last_char "") s).
  rewrite (re_search_token_first s ""). simpl append. simpl String.length.
  unfold first_position.
  destruct (find _ _) as [i|] eqn:E; [|reflexivity].
  apply find_some in E as [_ E].
  unfold standalone_at in E.
  apply andb_true_iff in E as [E _]. apply andb_true_iff in E as [E _].
  apply letter_at_char in E as [c E].
  unfold label_at. now rewrite E.
Qed.

Lemma letter_or_default s :
  match first_ABCD s with Some c => Some (str1 c) | None => None end
  = match first_position (letter_at s) (String.length s) with
    | Some i => Some (label_at s i)
    | None => None
    end.
Proof.
  rewrite (first_ABCD_first s ""). simpl append. simpl String.length.
  unfold first_position.
  destruct (find _ _) as [i|] eqn:E; [|reflexivity].
  apply find_some in E as [_ E].
  apply letter_at_char in E as [c E].
  unfold label_at. now rewrite E.
Qed.

Lemma _extract_letter_stripless raw_text :
  _extract_letter raw_text =
  let raw := upper raw_text in
  match re_search_token None raw with
  | Some c => str1 c
  | None => match first_ABCD raw with Some ch => str1 ch | None => "A" end
  end.
Proof.
  unfold _extract_letter.
  destruct raw_text as [|c s]; [reflexivity|].
  cbn [truthy negb]. cbv zeta.
  now rewrite upper_strip, re_search_token_strip, first_ABCD_strip.
Qed.

Lemma _extract_letter_refines raw_text :
  _extract_letter raw_text = parse_label_spec raw_text.
Proof.
  rewrite _extract_letter_stripless. unfold parse_label_spec. cbv zeta.
  set (u := upper raw_text).
  generalize (token_or_default u), (letter_or_default u).
  destruct (re_search_token None u), (first_position (standalone_at u) _);
    try discriminate; [now intros [= ->] |].
  intros _.
  destruct (first_ABCD u), (first_position (letter_at u) _);
    try discriminate; [now intros [= ->] | reflexivity].
Qed.

(** The rule at work. *)
Example extract_standalone_letter :
  _extract_letter "The answer is (c)." = "C".
Proof. reflexivity. Qed.

Example extract_first_letter_anywhere : _extract_letter "bad" = "B".
Proof. reflexivity. Qed.

Example extract_default : _extract_letter "none, sorry" = "A".
Proof. reflexivity. Qed.

Example extract_standalone_before_earlier_letter :
  _extract_letter "Candidate: d" = "D".
Proof. reflexivity. Qed.

(** *** The rate limiter *)

(** [time.sleep] is called exactly when less than the interval has
    elapsed since the recorded time, and then with the deficit. *)
Lemma _enforce_rate_limit_deficit self now :
  _enforce_rate_limit self now =
  if (now - _last_request_time self <? rate_limit_interval self)%Z
  then Some (rate_limit_interval self - (now - _last_request_time self))%Z
  else None.
Proof.
  unfold _enforce_rate_limit.
  destruct (Z.gtb_spec (rate_limit_interval self - (now - _last_request_time self)) 0),
           (Z.ltb_spec (now - _last_request_time self) (rate_limit_interval self));
    try reflexivity; lia.
Qed.

(** The request of a call is never sent before the recorded time plus
    the interval. *)
Lemma request_time_after_recorded self quiz_data w :
  (0 <= oversleep w)%Z ->
  (_last_request_time self + rate_limit_interval self
   <= request_time (get_answer self quiz_data w))%Z.
Proof.
  intros Hs. unfold get_answer. rewrite _enforce_rate_limit_deficit.
  destruct (Z.ltb_spec (now w - _last_request_time self) (rate_limit_interval self));
    destruct (reply w _); simpl; lia.
Qed.

(** After a call whose request succeeded, the next request is sent at
    least one interval after that one. *)
Lemma requests_spaced_after_success self quiz_data w1 quiz_data' w2 text :
  reply w1 (_build_contents quiz_data) = Returns text ->
  (0 <= latency w1)%Z ->
  (0 <= oversleep w2)%Z ->
  let r1 := get_answer self quiz_data w1 in
  let r2 := get_answer (solver r1) quiz_data' w2 in
  (request_time r1 + rate_limit_interval self <= request_time r2)%Z.
Proof.
  intros Hr Hl Hs r1 r2.
  pose proof (request_time_after_recorded (solver r1) quiz_data' w2 Hs) as H.
  fold r2 in H. subst r1.
  unfold get_answer in H at 1 2. unfold get_answer at 1.
  rewrite Hr in *. simpl in *. lia.
Qed.



(** C3, at a failing input.  Interval 2000; the recorded request time
    is 9000.  A call entered at 10000 sleeps the deficit 1000 and
    sends its request at 11000; the request fails.  The next call,
    entered at 11001, does not sleep and sends its request at 11001:
    one tick after the previous request, not 2000. *)
Theorem failed_request_is_not_recorded :
  let self := {| api_key := "k"; model_name := "m";
                 rate_limit_interval := 2000; _last_request_time := 9000 |} in
  let quiz_data := {| question := [Text "2+2=?"];
                      options := [("A", [Text "3"]); ("B", [Text "4"])];
                      option_elements := [("A", 1); ("B", 2)] |} in
  let w1 := {| now := 10000; oversleep := 0;
               reply := fun _ => Raises "503"; latency := 0 |} in
  let w2 := {| now := 11001; oversleep := 0;
               reply := fun _ => Returns (Some "B"); latency := 0 |} in
  let r1 := get_answer self quiz_data w1 in
  let r2 := get_answer (solver r1) quiz_data w2 in
  slept r1 = Some 1000%Z
  /\ request_time r1 = 11000%Z
  /\ _last_request_time (solver r1) = 9000%Z
  /\ slept r2 = None
  /\ request_time r2 = 11001%Z
  /\ (request_time r2 - request_time r1 <? rate_limit_interval self)%Z = true.
Proof. repeat split. Qed.

End SolverFacts.

(** ** Dictionaries *)

Module DictFacts.

Import Py.

Lemma mem_In x l : mem x l = true <-> In x l.
Proof.
  unfold mem. rewrite existsb_exists. split.
  - intros [y [Hy E]]. apply String.eqb_eq in E. now subst.
  - intros H. exists x. split; [exact H | apply String.eqb_refl].
Qed.

(** An assignment keeps the keys when the key is there and adds it at
    the end when it is not. *)
Lemma keys_set {V} (d : dict V) k v :
  keys (set d k v) = if mem k (keys d) then keys d else keys d ++ [k].
Proof.
  induction d as [|[k' v'] d IH]; simpl; [reflexivity|].
  rewrite (String.eqb_sym k k').
  destruct (String.eqb k' k) eqn:E; simpl; [reflexivity|].
  rewrite IH. now destruct (mem k (keys d)).
Qed.

Lemma get_keys {V} (d : dict V) k :
  (exists v, get d k = Some v) <-> In k (keys d).
Proof.
  induction d as [|[k' v'] d IH]; simpl.
  - split; [intros [v H]; discriminate | intros []].
  - destruct (String.eqb_spec k' k) as [->|N].
    + split; [now left | intros _; now exists v'].
    + rewrite IH. split; [now right | intros [E|H]; [congruence | exact H]].
Qed.

Lemma filter_filter {A} (p q : A -> bool) l :
  filter p (filter q l) = filter (fun x => q x && p x) l.
Proof.
  induction l as [|x l IH]; simpl; [reflexivity|].
  destruct (q x); simpl; [destruct (p x)|]; now rewrite IH.
Qed.

Lemma mem_app x l y : mem x (l ++ [y]) = mem x l || String.eqb x y.
Proof. unfold mem. rewrite existsb_app. simpl. now rewrite orb_false_r. Qed.

Lemma fold_add_key l : forall acc,
  fold_left add_key l acc
  = acc ++ filter (fun y => negb (mem y acc)) (first_occurrences l).
Proof.
  induction l as [|x l IH]; intros acc; simpl.
  - now rewrite app_nil_r.
  - rewrite IH. unfold add_key. rewrite filter_filter.
    destruct (mem x acc) eqn:E; simpl.
    + f_equal. apply filter_ext_in. intros y _.
      destruct (String.eqb_spec y x) as [->|N]; simpl; [now rewrite E | reflexivity].
    + rewrite <- app_assoc. simpl. do 2 f_equal.
      apply filter_ext. intros y. rewrite mem_app.
      destruct (String.eqb y x), (mem y acc); reflexivity.
Qed.

Lemma fold_add_key_nil l : fold_left add_key l [] = first_occurrences l.
Proof.
  rewrite fold_add_key. simpl.
  induction (first_occurrences l) as [|x r IH]; simpl; congruence.
Qed.

End DictFacts.

(** ** The content extractor *)

Module ScraperFacts.

Import PyStr.
Import PyStrFacts.
Import Py.
Import DictFacts.
Import scraper.
Local Open Scope py_scope.

(** *** Whitespace normalisation *)

Lemma join_cons sep p ps :
  ps <> [] -> join sep (p :: ps) = (p ++ sep ++ join sep ps)%string.
Proof. destruct ps; [congruence | reflexivity]. Qed.

Lemma space_is_space c : Ascii.eqb c " " = true -> isspace c = true.
Proof. intros H. apply Ascii.eqb_eq in H. now subst. Qed.

Lemma join_split_from s : forall cur after_space,
  Normal.collapsed_from after_space s = true ->
  (after_space = true -> cur = EmptyString) ->
  (after_space = false -> cur <> EmptyString) ->
  join " " (split_from cur s) = (cur ++ s)%string.
Proof.
  induction s as [|c s IH]; intros cur p Hc Ht Hf; simpl in *.
  - destruct p; [discriminate|].
    specialize (Hf eq_refl). rewrite append_empty_r.
    destruct cur; [congruence | reflexivity].
  - destruct (Ascii.eqb c " ") eqn:E.
    + rewrite (space_is_space c E).
      apply andb_true_iff in Hc as [Hp Hc].
      destruct p; [discriminate|]. specialize (Hf eq_refl).
      apply Ascii.eqb_eq in E. subst c.
      assert (Hne : split_from "" s <> []).
      { destruct s as [|d s]; [discriminate Hc|]. simpl in Hc |- *.
        destruct (Ascii.eqb d " "); [discriminate Hc|].
        apply andb_true_iff in Hc as [Hd _].
        apply negb_true_iff in Hd. rewrite Hd.
        apply split_from_nonempty. discriminate. }
      destruct cur as [|a cur]; [congruence|].
      rewrite join_cons by exact Hne.
      rewrite (IH "" true Hc); [reflexivity | reflexivity | discriminate].
    + apply andb_true_iff in Hc as [Hd Hc].
      apply negb_true_iff in Hd. rewrite Hd.
      rewrite (IH (cur ++ String c "")%string false Hc).
      * now rewrite append_assoc.
      * discriminate.
      * intros _. destruct cur; discriminate.
Qed.

Lemma join_split_collapsed s :
  Normal.collapsed s = true -> join " " (split s) = s.
Proof.
  destruct s as [|c s]; [reflexivity|].
  intros H. unfold split.
  now rewrite (join_split_from (String c s) "" true H).
Qed.

(** Text the parser reads as one string comes back as it is when its
    whitespace is collapsed. *)
Lemma parse_math_expressions_text BeautifulSoup s :
  BeautifulSoup s = [NavigableString s] ->
  Normal.collapsed s = true ->
  parse_math_expressions BeautifulSoup (Some s) = Ok s.
Proof.
  intros Hp Hc. unfold parse_math_expressions.
  destruct s as [|c s]; [reflexivity|].
  cbn [truthy negb]. rewrite Hp.
  cbn [rewrite_all rewrite_tag fold_right bind app get_text flat_map
       strings_of join].
  now rewrite join_split_collapsed.
Qed.

Example sample_page_scraped :
  scrape_quiz_data bs4.BeautifulSoup Samples.page_A_and_C "standard"
  = Ok {| question := [Text "2+2=?"];
          options := [("A", [Text "3"]); ("C", [Text "5"])];
          option_elements := [("A", 1); ("C", 3)] |}.
Proof. reflexivity. Qed.

(** *** The two dictionaries of [scrape_quiz_data] *)

Section WithParser.

Variable BeautifulSoup : string -> list Node.

Lemma scrape_card_keys o e card o' e' :
  scrape_card BeautifulSoup (o, e) card = Ok (o', e') ->
  keys o' = fold_left add_key (dom_labels [card]) (keys o)
  /\ keys e' = fold_left add_key (dom_labels [card]) (keys e).
Proof.
  unfold scrape_card, dom_labels, card_label.
  cbn [flat_map]. rewrite app_nil_r.
  destruct (label_text card) as [t|x]; [|now intros [= <- <-]].
  cbv zeta.
  destruct (mem (upper (strip t)) config.SUPPORTED_OPTION_LABELS);
    cbn [negb]; [|now intros [= <- <-]].
  destruct (_extract_element_content _ _) as [content|x]; [|discriminate].
  cbn [bind fold_left]. intros [= <- <-]. now rewrite !keys_set.
Qed.

Lemma dom_labels_cons card cards :
  dom_labels (card :: cards) = dom_labels [card] ++ dom_labels cards.
Proof. unfold dom_labels. simpl. now rewrite app_nil_r. Qed.

Lemma scrape_cards_keys cards : forall o e o' e',
  scrape_cards BeautifulSoup (o, e) cards = Ok (o', e') ->
  keys o' = fold_left add_key (dom_labels cards) (keys o)
  /\ keys e' = fold_left add_key (dom_labels cards) (keys e).
Proof.
  induction cards as [|card cards IH]; intros o e o' e'; cbn [scrape_cards].
  - now intros [= <- <-].
  - destruct (scrape_card BeautifulSoup (o, e) card) as [[o1 e1]|x] eqn:E;
      cbn [bind]; [|discriminate].
    intros H. apply IH in H as [Ho He].
    apply scrape_card_keys in E as [Ho1 He1].
    rewrite dom_labels_cons, !fold_left_app. now rewrite <- Ho1, <- He1.
Qed.

(** A card without a supported label leaves the dictionaries alone. *)
Lemma scrape_cards_no_label cards acc :
  dom_labels cards = [] -> scrape_cards BeautifulSoup acc cards = Ok acc.
Proof.
  induction cards as [|card cards IH]; intros H; [reflexivity|].
  rewrite dom_labels_cons in H. apply app_eq_nil in H as [H1 H2].
  cbn [scrape_cards]. unfold scrape_card at 1. destruct acc as [o e].
  unfold dom_labels, card_label in H1. cbn [flat_map] in H1.
  rewrite app_nil_r in H1.
  destruct (label_text card) as [t|x]; cbn [bind]; [|now apply IH].
  cbv zeta in H1 |- *.
  destruct (mem (upper (strip t)) config.SUPPORTED_OPTION_LABELS);
    [discriminate H1|].
  cbn [negb bind]. now apply IH.
Qed.

(** What a successful extraction returns. *)
Lemma scrape_quiz_data_ok driver mode quiz_data :
  scrape_quiz_data BeautifulSoup driver mode = Ok quiz_data ->
  exists cards,
    present_elements driver config.OPTION_CARD_CLASS = Ok cards
    /\ keys (options quiz_data) = first_occurrences (dom_labels cards)
    /\ keys (option_elements quiz_data) = first_occurrences (dom_labels cards)
    /\ keys (options quiz_data) <> [].
Proof.
  unfold scrape_quiz_data. cbv zeta.
  destruct (visible_element driver _) as [q|x]; cbn [bind]; [|discriminate].
  destruct (_extract_element_content _ q) as [qc|x]; cbn [bind]; [|discriminate].
  destruct (present_elements driver _) as [cards|x]; cbn [bind]; [|discriminate].
  destruct (scrape_cards _ _ cards) as [[o e]|x] eqn:E; cbn [bind];
    [|discriminate].
  apply scrape_cards_keys in E as [Ho He]. cbn [keys map] in Ho, He.
  rewrite fold_add_key_nil in Ho, He.
  destruct o as [|kv o]; [discriminate|].
  intros [= <-]. exists cards. cbn [options option_elements].
  repeat split; auto. discriminate.
Qed.

(** What it does when no card has a supported label. *)
Lemma scrape_quiz_data_no_label driver mode q qc cards :
  visible_element driver (question_class mode) = Ok q ->
  _extract_element_content BeautifulSoup q = Ok qc ->
  present_elements driver config.OPTION_CARD_CLASS = Ok cards ->
  dom_labels cards = [] ->
  scrape_quiz_data BeautifulSoup driver mode = Raise no_valid_options.
Proof.
  unfold scrape_quiz_data, question_class. cbv zeta.
  intros -> Hq -> H. cbn [bind]. rewrite Hq. cbn [bind].
  now rewrite scrape_cards_no_label.
Qed.

End WithParser.

Lemma first_occurrences_In x l : In x (first_occurrences l) -> In x l.
Proof.
  induction l as [|y l IH]; simpl; [auto|].
  intros [E|H]; [now left|]. apply filter_In in H as [H _]. right. auto.
Qed.

Lemma dom_labels_supported l cards :
  In l (dom_labels cards) -> In l config.SUPPORTED_OPTION_LABELS.
Proof.
  unfold dom_labels. rewrite in_flat_map. intros [card [_ H]].
  unfold card_label in H.
  destruct (label_text card) as [t|x]; [|destruct H].
  cbv zeta in H.
  destruct (mem _ _) eqn:E; [|destruct H].
  destruct H as [<-|[]]. now apply mem_In.
Qed.

Lemma supported_uppercase l :
  In l config.SUPPORTED_OPTION_LABELS -> upper l = l.
Proof.
  simpl. intros [<-|[<-|[<-|[<-|[]]]]]; reflexivity.
Qed.

(** C10. After a successful extraction the dictionary of option
    contents and the dictionary of option handles have the same keys
    in the same order; a label has contents exactly when it has a
    handle. *)
Theorem options_and_handles_share_keys BeautifulSoup driver mode :
  match scrape_quiz_data BeautifulSoup driver mode with
  | Ok quiz_data =>
      keys (options quiz_data) = keys (option_elements quiz_data)
      /\ forall label,
           (exists content, get (options quiz_data) label = Some content)
           <-> (exists handle, get (option_elements quiz_data) label = Some handle)
  | Raise _ => True
  end.
Proof.
  destruct (scrape_quiz_data BeautifulSoup driver mode) as [qd|x] eqn:E;
    [|exact I].
  apply scrape_quiz_data_ok in E as [cards [_ [Ho [He _]]]].
  split; [congruence|].
  intros label. rewrite !get_keys. now rewrite Ho, He.
Qed.

(** C5, as the code has it.  After a successful extraction every key
    of the option dictionary is an uppercase label of the alphabet,
    and the keys stand in the order in which the labels first occur
    among the option cards of the document. *)
Theorem option_keys_uppercase_in_document_order BeautifulSoup driver mode :
  match scrape_quiz_data BeautifulSoup driver mode with
  | Ok quiz_data =>
      Forall (fun k => upper k = k /\ In k config.SUPPORTED_OPTION_LABELS)
        (keys (options quiz_data))
      /\ exists cards,
           present_elements driver config.OPTION_CARD_CLASS = Ok cards
           /\ keys (options quiz_data) = first_occurrences (dom_labels cards)
  | Raise _ => True
  end.
Proof.
  destruct (scrape_quiz_data BeautifulSoup driver mode) as [qd|x] eqn:E;
    [|exact I].
  apply scrape_quiz_data_ok in E as [cards [Hc [Ho _]]].
  split; [|now exists cards].
  apply Forall_forall. intros k Hk. rewrite Ho in Hk.
  apply first_occurrences_In, dom_labels_supported in Hk.
  split; [now apply supported_uppercase | exact Hk].
Qed.

(** C5 fails as stated: with the card of B before the card of A in the
    document, the keys are B, A. *)
Lemma keys_follow_the_document :
  match scrape_quiz_data bs4.BeautifulSoup Samples.page_B_then_A "standard" with
  | Ok quiz_data =>
      keys (options quiz_data) = ["B"; "A"]
      /\ gemini_solver.sorted (keys (options quiz_data)) = ["A"; "B"]
  | Raise _ => False
  end.
Proof. vm_compute. split; reflexivity. Qed.




End ScraperFacts.

(** ** The automation loop *)

Module LoopFacts.

Import Py.
Import main.
Import Watch.
Local Open Scope loop_scope.

(** *** Sequencing *)

Lemma seq_next {A B} (m : M A) (k : A -> M B) s tr a s1 :
  m s = (tr, Next a, s1) ->
  seq m k s = (let '(tr', r, s2) := k a s1 in (tr ++ tr', r, s2)).
Proof. unfold seq. now intros ->. Qed.

Lemma seq_exit {A B} (m : M A) (k : A -> M B) s tr c s1 :
  m s = (tr, Exit c, s1) -> seq m k s = (tr, Exit c, s1).
Proof. unfold seq. now intros ->. Qed.

Lemma seq_assoc {A B C} (m : M A) (k : A -> M B) (k' : B -> M C) s :
  seq (seq m k) k' s = seq m (fun a => seq (k a) k') s.
Proof.
  unfold seq. destruct (m s) as [[tr [a|c]] s1]; [|reflexivity].
  destruct (k a s1) as [[tr1 [b|c]] s2]; [|reflexivity].
  destruct (k' b s2) as [[tr2 r] s3]. now rewrite app_assoc.
Qed.

(** *** Watching a piece of code *)

Lemma watch_app p a b :
  watch p (a ++ b)
  = match watch p a with Some q => watch q b | None => None end.
Proof.
  revert p. induction a as [|e a IH]; intros p; simpl; [reflexivity|].
  destruct (step p e); [apply IH | reflexivity].
Qed.

Lemma keeps_ret {A} p (a : A) (post : A -> Phase -> Prop) :
  post a p -> keeps p (ret a) post.
Proof. intros H s. exists p. now split. Qed.

Lemma keeps_leave {A} p c (post : A -> Phase -> Prop) :
  settled c p = true -> keeps p (leave c) post.
Proof. intros H s. exists p. now split. Qed.

Lemma keeps_emit p e q (post : unit -> Phase -> Prop) :
  step p e = Some q -> post tt q -> keeps p (emit e) post.
Proof. intros H Hq s. exists q. simpl. now rewrite H. Qed.

Lemma keeps_emit_eq p e q :
  step p e = Some q -> keeps p (emit e) (fun _ r => r = q).
Proof. intros H. now apply (keeps_emit p e q). Qed.

Lemma open_log p line : is_open p = true -> step p (Log line) = Some p.
Proof. now destruct p. Qed.

Lemma keeps_log p line (post : unit -> Phase -> Prop) :
  is_open p = true -> post tt p -> keeps p (log line) post.
Proof. intros H. apply keeps_emit. now apply open_log. Qed.

Lemma keeps_log_eq p line :
  is_open p = true -> keeps p (log line) (fun _ r => r = p).
Proof. intros H. now apply keeps_log. Qed.

Lemma keeps_seq {A B} p (m : M A) (k : A -> M B) Q R :
  keeps p m Q ->
  (forall a q, Q a q -> keeps q (k a) R) ->
  keeps p (seq m k) R.
Proof.
  intros Hm Hk s. destruct (Hm s) as [q [Hw Hf]].
  unfold seq. destruct (m s) as [[tr [a|c]] s1]; simpl in Hw, Hf.
  - destruct (Hk a q Hf s1) as [r [Hw' Hf']].
    destruct (k a s1) as [[tr' f] s2]. simpl in *.
    exists r. now rewrite watch_app, Hw.
  - exists q. now split.
Qed.

Lemma keeps_weaken {A} p (m : M A) (Q R : A -> Phase -> Prop) :
  keeps p m Q -> (forall a q, Q a q -> R a q) -> keeps p m R.
Proof.
  intros Hm H s. destruct (Hm s) as [q [Hw Hf]]. exists q. split; [exact Hw|].
  destruct (snd (fst (m s))); auto.
Qed.

Lemma settled_open c p : is_open p = true -> settled c p = true.
Proof. destruct c, p; simpl; congruence. Qed.

(** One statement of the body after another: the first ends in a known
    phase. *)
Tactic Notation "first_" tactic3(t) :=
  eapply keeps_seq;
  [ t | let H := fresh in intros ? ? H; cbv beta in H; try subst ].
Ltac logs := first [ apply keeps_log_eq; reflexivity
                   | apply keeps_log; reflexivity ].
Ltac emits := first [ apply keeps_emit_eq; reflexivity
                    | eapply keeps_emit; reflexivity ].
Ltac leaves := apply keeps_leave; reflexivity.
Ltac rets := apply keeps_ret; reflexivity.

(** *** The pieces of the loop *)

Section Loop.

Variable BeautifulSoup : string -> list scraper.Node.
Variable cfg : config.Settings.

Lemma click_close_keeps btns :
  keeps Checked (click_close btns) (fun _ q => q = Checked).
Proof.
  induction btns as [|btn btns IH]; simpl; [rets|].
  destruct (b_displayed btn) as [[]|]; [|exact IH|rets].
  destruct (b_enabled btn) as [[]|]; [|exact IH|rets].
  destruct (b_click btn); [|rets].
  first_ emits. first_ logs. emits.
Qed.

Lemma booster_finished_keeps sl :
  keeps Checked (booster_finished cfg sl) (fun _ q => q = Checked).
Proof.
  unfold booster_finished.
  destruct (is_booster cfg); [|rets].
  destruct (finished_el sl) as [[]|]; [|rets|rets].
  first_ logs.
  first_ (destruct (close_btn sl); [apply click_close_keeps | rets]).
  leaves.
Qed.

Lemma click_popups_keeps popups :
  keeps Checked (click_popups popups) (fun _ q => q = Checked).
Proof.
  induction popups as [|popup popups IH]; simpl; [rets|].
  destruct (p_displayed popup) as [[]|]; [|exact IH|rets].
  apply keeps_seq with (Q := fun _ q => q = Checked);
    [|intros ? ? ->; exact IH].
  destruct (p_button popup) as [popup_btn|]; [|rets].
  destruct (b_displayed popup_btn) as [[]|]; [|rets|rets].
  first_ logs.
  destruct (b_click popup_btn); [|rets].
  first_ emits. first_ logs. emits.
Qed.

Lemma booster_popup_keeps sl :
  keeps Checked (booster_popup cfg sl) (fun _ q => q = Checked).
Proof.
  unfold booster_popup.
  destruct (is_booster cfg); [|rets].
  destruct (popup_els sl); [apply click_popups_keeps | rets].
Qed.

Lemma scrape_failed_keeps e post :
  keeps Unchecked (scrape_failed e) post.
Proof.
  unfold scrape_failed.
  destruct (is_WebDriverException e); [destruct (_ || _)|];
    (first_ logs; leaves).
Qed.

Lemma check_keeps p b :
  is_open p = true ->
  keeps p (emit (CheckStop b)) (fun _ q => q = if b then Observed else Checked).
Proof. intros H. apply keeps_emit_eq. now destruct p, b. Qed.

Lemma stop_line_keeps line :
  is_stop_line line = true ->
  keeps Observed (log line) (fun _ q => q = Announced).
Proof. intros H. apply keeps_emit_eq. simpl. now rewrite H. Qed.

Lemma poll_keeps per_attempt_timeout original_timeout slices :
  forall total_waited p,
    is_open p = true ->
    keeps p
      (poll BeautifulSoup cfg per_attempt_timeout original_timeout
         total_waited slices)
      (fun quiz_data q =>
         match quiz_data with
         | Some _ => q = Unchecked
         | None => is_open q = true
         end).
Proof.
  induction slices as [|sl slices IH]; intros total_waited p Hp; simpl;
    destruct (total_waited <? original_timeout)%Z;
    try (apply keeps_ret; exact Hp).
  - apply keeps_leave. now apply settled_open.
  - first_ (apply check_keeps; exact Hp).
    destruct (stop_in_wait sl).
    + first_ (apply stop_line_keeps; reflexivity). leaves.
    + first_ (apply booster_finished_keeps).
      first_ (apply booster_popup_keeps).
      first_ emits.
      destruct (scraper.scrape_quiz_data _ _ _) as [quiz_data|e]; [rets|].
      destruct (cls e); try apply scrape_failed_keeps.
      now apply IH.
Qed.

Lemma find_question_keeps c p :
  is_open p = true ->
  keeps p (find_question BeautifulSoup cfg c) (fun _ q => q = Unchecked).
Proof.
  intros Hp. unfold find_question.
  first_ (apply check_keeps; exact Hp).
  destruct (stop_at_top c).
  - first_ (apply stop_line_keeps; reflexivity). leaves.
  - cbv zeta.
    eapply keeps_seq; [apply poll_keeps; reflexivity|].
    intros [quiz_data|] q Hq; [subst q; rets|].
    destruct q; try discriminate Hq; (first_ logs; leaves).
Qed.

Lemma ask_keeps quiz_data w :
  keeps Unchecked (ask quiz_data w) (fun _ q => q = Unchecked).
Proof. intros s. exists Unchecked. now split. Qed.

Lemma choose_keeps option_elements answer_letter :
  keeps Unchecked (choose option_elements answer_letter)
    (fun _ q => q = Unchecked).
Proof.
  unfold choose.
  destruct (get option_elements answer_letter); [rets|].
  destruct option_elements as [|[fallback_label chosen_element] rest].
  - first_ logs. leaves.
  - first_ logs. rets.
Qed.

Lemma select_keeps c quiz_data :
  keeps Unchecked (select c quiz_data) (fun _ q => q = Unchecked).
Proof.
  unfold select. first_ (apply ask_keeps). apply choose_keeps.
Qed.

Lemma wait_clickable_keeps c h :
  keeps Unchecked (wait_clickable c h) (fun _ q => q = Unchecked).
Proof.
  unfold wait_clickable.
  destruct (clickable c h) as [|e]; [rets|].
  destruct (cls e); try (first_ logs; leaves). leaves.
Qed.

Lemma click_chosen_keeps c h :
  keeps Unchecked (click_chosen c h) (fun _ q => q = Unchecked).
Proof.
  unfold click_chosen.
  destruct (click c h) as [|e]; [emits|].
  destruct (cls e); try (first_ logs; leaves);
    (destruct (script_click c h); [emits | first_ logs; leaves]).
Qed.

Lemma click_option_keeps c h :
  keeps Unchecked (click_option c h) (fun _ q => q = Unchecked).
Proof.
  unfold click_option.
  first_ (apply wait_clickable_keeps). apply click_chosen_keeps.
Qed.

Lemma click_action_keeps a failure :
  keeps Unchecked (click_action a failure) (fun _ q => q = Acted).
Proof.
  unfold click_action.
  destruct (a_click a); [emits|].
  destruct (a_script_click a); [emits | first_ logs; leaves].
Qed.

Lemma stop_check_after_keeps c post :
  keeps Acted (stop_check_after c) post.
Proof.
  unfold stop_check_after.
  first_ (apply check_keeps; reflexivity).
  destruct (stop_after_action c).
  - first_ (apply stop_line_keeps; reflexivity). leaves.
  - leaves.
Qed.

Lemma booster_failed_keeps p e post :
  is_open p = true -> keeps p (booster_failed e) post.
Proof.
  intros Hp. unfold booster_failed.
  destruct (cls e);
    (eapply keeps_seq;
     [apply keeps_log_eq; exact Hp
     | intros ? ? ->; apply keeps_leave; now apply settled_open]).
Qed.

Lemma booster_action_keeps c :
  keeps Unchecked (booster_action c) (fun _ q => q = Acted).
Proof.
  unfold booster_action.
  destruct (booster_button c) as [action_button_click|e];
    [|now apply booster_failed_keeps].
  destruct (booster_enabled_wait c) as [|e];
    [|now apply booster_failed_keeps].
  cbv zeta.
  destruct action_button_click as [|e]; [|now apply booster_failed_keeps].
  first_ emits. first_ logs.
  apply keeps_seq with (Q := fun _ q => q = Acted);
    [|intros ? ? ->; emits].
  destruct (current_question c); [|rets].
  destruct (question_stale_wait c) as [|e]; [rets|].
  destruct (cls e); try (now apply booster_failed_keeps). rets.
Qed.

Lemma confirmation_failed_keeps e :
  keeps Acted (confirmation_failed e) (fun _ q => q = Acted).
Proof. unfold confirmation_failed. destruct (cls e); logs. Qed.

Lemma confirm_submission_keeps c :
  keeps Acted (confirm_submission c) (fun _ q => q = Acted).
Proof.
  unfold confirm_submission.
  destruct (overlay_wait c); [|apply confirmation_failed_keeps].
  destruct (yes_wait c) as [yes_button|]; [|apply confirmation_failed_keeps].
  destruct (y_script_click yes_button); [first_ emits; logs|].
  destruct (y_click yes_button);
    [first_ emits; logs | apply confirmation_failed_keeps].
Qed.

Lemma standard_action_keeps c post :
  keeps Unchecked (standard_action cfg c) post.
Proof.
  unfold standard_action.
  apply keeps_seq with (Q := fun _ q => q = Unchecked).
  { destruct (action_wait c) as [a|e]; [rets|].
    destruct (cls e); try (first_ logs; leaves). leaves. }
  intros action_button ? ->.
  apply keeps_seq with (Q := fun _ q => q = Unchecked).
  { destruct (a_text action_button); [rets | leaves]. }
  intros action_text ? ->.
  first_ logs.
  destruct (String.eqb action_text config.NEXT_BUTTON_TEXT).
  - first_ (apply click_action_keeps). first_ emits.
    apply keeps_seq with (Q := fun _ q => q = Acted);
      [|intros ? ? ->; apply stop_check_after_keeps].
    destruct (config.STEALTH_ENABLED cfg); [first_ logs; emits | rets].
  - destruct (String.eqb action_text config.SUBMIT_BUTTON_TEXT).
    + first_ logs. first_ (apply click_action_keeps).
      first_ (apply confirm_submission_keeps). leaves.
    + first_ logs. first_ (apply click_action_keeps). first_ emits.
      apply stop_check_after_keeps.
Qed.

Lemma advance_keeps c :
  keeps Unchecked (advance cfg c) (fun _ q => q = Acted).
Proof.
  unfold advance.
  destruct (is_booster cfg);
    [apply booster_action_keeps | apply standard_action_keeps].
Qed.

Lemma cycle_keeps c p :
  is_open p = true ->
  keeps p (cycle BeautifulSoup cfg c) (fun _ q => q = Acted).
Proof.
  intros Hp. unfold cycle.
  first_ (apply find_question_keeps; exact Hp).
  first_ (apply select_keeps).
  first_ (apply click_option_keeps).
  apply advance_keeps.
Qed.

Lemma while_true_keeps script : forall p post,
  is_open p = true ->
  keeps p (while_true BeautifulSoup cfg script) post.
Proof.
  induction script as [|c script IH]; intros p post Hp.
  - apply keeps_leave. now apply settled_open.
  - intros s. cbn [while_true].
    destruct (cycle_keeps c p Hp s) as [q [Hw Hf]].
    destruct (cycle BeautifulSoup cfg c s) as [[tr f] s1].
    cbn [fst snd] in Hw, Hf.
    assert (Hgo : forall q, watch p tr = Some q -> is_open q = true ->
              exists r,
                watch p
                  (fst (fst (let '(tr', r, s2) :=
                               while_true BeautifulSoup cfg script s1 in
                             (tr ++ tr', r, s2)))) = Some r
                /\ match snd (fst (let '(tr', r, s2) :=
                                     while_true BeautifulSoup cfg script s1 in
                                   (tr ++ tr', r, s2))) with
                   | Next a => post a r
                   | Exit c => settled c r = true
                   end).
    { intros q' Hw' Hq'.
      destruct (IH q' post Hq' s1) as [r [Hw2 Hf2]].
      destruct (while_true BeautifulSoup cfg script s1) as [[tr' f'] s2].
      cbn [fst snd] in *. exists r. now rewrite watch_app, Hw'. }
    destruct f as [a|[]]; try (exists q; now split).
    + apply (Hgo q Hw). now subst q.
    + apply (Hgo q Hw). now destruct q.
Qed.

(** A run causes allowed events only, and does not end between a
    look that found the signal set and the closing line. *)
Lemma run_solver_loop_watched driver_launched script :
  exists p,
    watch Unchecked
      (fst (run_solver_loop BeautifulSoup cfg driver_launched script)) = Some p
    /\ p <> Observed /\ p <> Announced.
Proof.
  unfold run_solver_loop.
  destruct (_ || _); [exists Unchecked; repeat split; discriminate|].
  destruct (negb driver_launched); [exists Unchecked; repeat split; discriminate|].
  destruct (gemini_solver.__init__ _ _ _) as [solver|];
    [|exists Unchecked; repeat split; discriminate].
  cbv zeta.
  match goal with |- context [match ?body solver with _ => _ end] =>
    assert (H : keeps Unchecked body (fun _ q => is_open q = true));
    [|destruct (H solver) as [q [Hw Hf]];
      destruct (body solver) as [[tr f] s1]]
  end.
  { first_ logs. first_ logs. first_ logs. first_ logs.
    apply keeps_seq with (Q := fun _ q => q = Unchecked);
      [destruct (is_booster cfg); [logs | rets]|].
    intros ? ? ->. now apply while_true_keeps. }
  cbn [fst snd] in Hw, Hf.
  destruct f as [a|[| | |e|]]; cbn [fst]; rewrite ?watch_app, ?Hw;
    destruct q; try discriminate Hf; cbn;
    eexists; (split; [reflexivity | split; discriminate]).
Qed.

End Loop.

(** *** Clicks after the signal is raised *)

Lemma step_budget p e q :
  step p e = Some q ->
  (forall b, e = CheckStop b -> b = true) ->
  (if is_action_click e then 1 else 0) + budget q <= budget p.
Proof.
  intros H Hb.
  destruct e as [line|b| | |t|ms]; try destruct t; try destruct b;
    try (specialize (Hb false eq_refl); discriminate Hb);
    destruct p; simpl in H; try discriminate H;
    try (destruct (is_stop_line line)); try (destruct (is_closing_line line));
    try discriminate H; injection H as <-; simpl; lia.
Qed.

Lemma action_clicks_past_raise t tr : forall i p q,
  t <= i ->
  watch p tr = Some q ->
  raised_at t i tr = true ->
  List.length (filter is_action_click tr) <= budget p.
Proof.
  induction tr as [|e tr IH]; intros i p q Hi Hw Hr; simpl in *; [lia|].
  destruct (step p e) as [p'|] eqn:E; [|discriminate].
  assert (Hb : forall b, e = CheckStop b -> b = true).
  { intros b ->. apply andb_true_iff in Hr as [Hr _].
    apply Bool.eqb_prop in Hr. rewrite Hr. apply Nat.leb_le. exact Hi. }
  assert (Hr' : raised_at t (S i) tr = true).
  { destruct e; try exact Hr. now apply andb_true_iff in Hr as [_ Hr]. }
  pose proof (step_budget p e p' E Hb) as Hs.
  pose proof (IH (S i) p' q (Nat.le_le_succ_r _ _ Hi) Hw Hr') as Hrest.
  destruct (is_action_click e); simpl; lia.
Qed.

Lemma action_clicks_after_raise t tr : forall i p q,
  watch p tr = Some q ->
  raised_at t i tr = true ->
  List.length (filter is_action_click (skipn (t - i) tr)) <= 1.
Proof.
  induction tr as [|e tr IH]; intros i p q Hw Hr.
  - rewrite skipn_nil. simpl. lia.
  - destruct (t - i) as [|k] eqn:Ek.
    + cbn [skipn].
      transitivity (budget p);
        [apply (action_clicks_past_raise t _ i p q); [lia | exact Hw | exact Hr]|].
      destruct p; simpl; lia.
    + cbn [skipn]. simpl in Hw.
      destruct (step p e) as [p'|]; [|discriminate].
      replace k with (t - S i) by lia.
      apply (IH (S i) p' q Hw).
      destruct e; try exact Hr. now apply andb_true_iff in Hr as [_ Hr].
Qed.

(** *** The handlers of the polling loop *)

Lemma click_close_goes_on btns s :
  exists tr, click_close btns s = (tr, Next tt, s).
Proof.
  induction btns as [|btn btns IH]; simpl; [now eexists|].
  destruct (b_displayed btn) as [[]|]; [|exact IH|now eexists].
  destruct (b_enabled btn) as [[]|]; [|exact IH|now eexists].
  destruct (b_click btn); now eexists.
Qed.

Lemma click_popups_goes_on popups s :
  exists tr, click_popups popups s = (tr, Next tt, s).
Proof.
  induction popups as [|popup popups IH]; simpl; [now eexists|].
  destruct (p_displayed popup) as [[]|]; [|exact IH|now eexists].
  destruct IH as [tr IH]. unfold seq at 1.
  destruct (p_button popup) as [popup_btn|];
    [|cbn; rewrite IH; now eexists].
  destruct (b_displayed popup_btn) as [[]|];
    try (cbn; rewrite IH; now eexists).
  destruct (b_click popup_btn); cbn; rewrite IH; now eexists.
Qed.

Lemma booster_finished_returns cfg sl s :
  exists tr,
    booster_finished cfg sl s = (tr, Next tt, s)
    \/ booster_finished cfg sl s = (tr, Exit Return, s).
Proof.
  unfold booster_finished.
  destruct (is_booster cfg); [|eexists; now left].
  destruct (finished_el sl) as [[]|]; try (eexists; now left).
  unfold seq at 1. cbn.
  destruct (close_btn sl) as [btns|]; [|eexists; now right].
  destruct (click_close_goes_on btns s) as [tr H].
  unfold seq. rewrite H. eexists. now right.
Qed.

Lemma booster_popup_goes_on cfg sl s :
  exists tr, booster_popup cfg sl s = (tr, Next tt, s).
Proof.
  unfold booster_popup.
  destruct (is_booster cfg); [|now eexists].
  destruct (popup_els sl); [apply click_popups_goes_on | now eexists].
Qed.

(** The failure of [scrape_quiz_data] for want of a label ends the
    polling loop by [return]: the slices that follow are not looked
    at. *)
Lemma poll_no_valid_options BeautifulSoup cfg per original total sl rest s :
  (total <? original)%Z = true ->
  stop_in_wait sl = false ->
  scraper.scrape_quiz_data BeautifulSoup (page sl)
    (if is_booster cfg then "booster" else "standard")
  = Raise scraper.no_valid_options ->
  exists tr,
    poll BeautifulSoup cfg per original total (sl :: rest) s
    = (tr, Exit Return, s)
    /\ (is_booster cfg = false ->
        tr = [CheckStop false; Scrape;
              Log ("[ERROR] Unexpected error while scraping quiz data: "
                   ++ msg scraper.no_valid_options)]).
Proof.
  intros Ht Hs Hscrape. cbn [poll]. rewrite Ht, Hs. cbv zeta.
  rewrite Hscrape. cbn [cls scraper.no_valid_options].
  rewrite (seq_next (emit (CheckStop false)) _ s [CheckStop false] tt s eq_refl).
  destruct (booster_finished_returns cfg sl s) as [tr1 [H1|H1]].
  - rewrite (seq_next _ _ _ _ _ _ H1).
    destruct (booster_popup_goes_on cfg sl s) as [tr2 H2].
    rewrite (seq_next _ _ _ _ _ _ H2).
    rewrite (seq_next (emit Scrape) _ s [Scrape] tt s eq_refl).
    cbn. eexists. split; [reflexivity|].
    intros Eb. unfold booster_finished in H1. unfold booster_popup in H2.
    rewrite Eb in H1, H2. injection H1 as <-. injection H2 as <-. reflexivity.
  - rewrite (seq_exit _ _ _ _ _ _ H1).
    eexists. split; [reflexivity|].
    intros Eb. unfold booster_finished in H1. rewrite Eb in H1. discriminate H1.
Qed.



(** *** Choosing and clicking the option *)

(** C6. When the label returned by the selector has no element among
    the scraped option elements, the loop takes the first element of
    the dictionary and logs which label replaces which; when the
    dictionary is empty it logs an error and leaves the loop. *)
Theorem missing_label_falls_back_to_first_option c quiz_data solver :
  let r := gemini_solver.get_answer solver quiz_data (service c) in
  let asked :=
    [Solve;
     Log ("[SOLVER] Gemini selected answer option: '"
          ++ gemini_solver.answer r ++ "'.")] in
  get (option_elements quiz_data) (gemini_solver.answer r) = None ->
  match option_elements quiz_data with
  | (first_label, first_element) :: _ =>
      select c quiz_data solver
      = (asked ++
         [Log ("[INFO] Desired option '" ++ gemini_solver.answer r
               ++ "' not found. Falling back to option '" ++ first_label
               ++ "'.")],
         Next first_element, gemini_solver.solver r)
  | [] =>
      select c quiz_data solver
      = (asked ++
         [Log "[ERROR] No option elements available to click. Terminating automation loop."],
         Exit Break, gemini_solver.solver r)
  end.
Proof.
  intros r asked H. unfold select, seq, ask. fold r.
  unfold choose. rewrite H.
  destruct (option_elements quiz_data) as [|[first_label first_element] rest];
    reflexivity.
Qed.

(** A [break] in the body ends [while True]. *)
Lemma break_ends_the_loop BeautifulSoup cfg c rest s tr s1 :
  cycle BeautifulSoup cfg c s = (tr, Exit Break, s1) ->
  while_true BeautifulSoup cfg (c :: rest) s = (tr, Exit Break, s1).
Proof. cbn [while_true]. now intros ->. Qed.

(** A [continue] in the body starts the next turn. *)
Lemma continue_starts_next_turn BeautifulSoup cfg c rest s tr s1 :
  cycle BeautifulSoup cfg c s = (tr, Exit Continue, s1) ->
  while_true BeautifulSoup cfg (c :: rest) s
  = (let '(tr', f, s2) := while_true BeautifulSoup cfg rest s1 in
     (tr ++ tr', f, s2)).
Proof. cbn [while_true]. now intros ->. Qed.

(** When the wait for the chosen option or [click()] on it raises the
    staleness exception, the turn logs a warning and ends by
    [continue]; nothing else of the turn happens, and the loop goes on
    with its next turn, which starts at the stop check before the
    wait for the question. *)
Lemma stale_option_restarts_the_cycle
    BeautifulSoup cfg c rest solver pre chosen_element s1 e :
  (quiz_data <~ find_question BeautifulSoup cfg c ;; select c quiz_data) solver
  = (pre, Next chosen_element, s1) ->
  cls e = StaleElementReferenceException ->
  clickable c chosen_element = Raise e
  \/ (clickable c chosen_element = Ok tt /\ click c chosen_element = Raise e) ->
  exists warning,
    cycle BeautifulSoup cfg c solver = (pre ++ [Log warning], Exit Continue, s1)
    /\ while_true BeautifulSoup cfg (c :: rest) solver
       = (let '(tr, f, s2) := while_true BeautifulSoup cfg rest s1 in
          ((pre ++ [Log warning]) ++ tr, f, s2)).
Proof.
  intros Hpre He Hstale.
  assert (Hc : exists warning,
             cycle BeautifulSoup cfg c solver
             = (pre ++ [Log warning], Exit Continue, s1)).
  { unfold cycle.
    rewrite <- (seq_assoc (find_question BeautifulSoup cfg c)
                  (fun quiz_data => select c quiz_data)).
    rewrite (seq_next _ _ _ _ _ _ Hpre).
    unfold click_option, wait_clickable, click_chosen.
    destruct Hstale as [Hw|[Hw Hk]].
    - unfold seq at 1. unfold seq at 1. rewrite Hw, He. cbn. now eexists.
    - unfold seq at 1. unfold seq at 1. rewrite Hw, Hk, He. cbn. now eexists. }
  destruct Hc as [warning Hc]. exists warning. split; [exact Hc|].
  now apply continue_starts_next_turn.
Qed.

Lemma missing_label_falls_back_to_first_option_witness :
  select (Samples.turn Samples.page_A_and_C "B" (Ok tt) false)
    Samples.payload_A_and_C Samples.fresh_solver
  = ([Solve;
      Log "[SOLVER] Gemini selected answer option: 'B'.";
      Log "[INFO] Desired option 'B' not found. Falling back to option 'A'."],
     Next 1,
     gemini_solver.solver
       (gemini_solver.get_answer Samples.fresh_solver Samples.payload_A_and_C
          (Samples.answering "B")))
  /\ select (Samples.turn Samples.page_A_and_C "B" (Ok tt) false)
       Samples.payload_without_handles Samples.fresh_solver
     = ([Solve;
         Log "[SOLVER] Gemini selected answer option: 'B'.";
         Log "[ERROR] No option elements available to click. Terminating automation loop."],
        Exit Break,
        gemini_solver.solver
          (gemini_solver.get_answer Samples.fresh_solver
             Samples.payload_without_handles (Samples.answering "B")))
  /\ filter is_click
       (fst (run_solver_loop bs4.BeautifulSoup Samples.settings true
               [Samples.turn Samples.page_A_and_C "B" (Ok tt) false]))
     = [Clicked (OptionCard 1); Clicked ActionButton].
Proof.
  split; [|split].
  - exact (missing_label_falls_back_to_first_option
             (Samples.turn Samples.page_A_and_C "B" (Ok tt) false)
             Samples.payload_A_and_C Samples.fresh_solver eq_refl).
  - exact (missing_label_falls_back_to_first_option
             (Samples.turn Samples.page_A_and_C "B" (Ok tt) false)
             Samples.payload_without_handles Samples.fresh_solver eq_refl).
  - reflexivity.
Defined.

Lemma stale_option_restarts_the_cycle_witness :
  let c := Samples.turn Samples.page_A_to_D "B" (Raise Samples.stale) false in
  let before :=
    (quiz_data <~ find_question bs4.BeautifulSoup Samples.settings c ;;
     select c quiz_data) Samples.fresh_solver in
  exists warning,
    cycle bs4.BeautifulSoup Samples.settings c Samples.fresh_solver
    = (fst (fst before) ++ [Log warning], Exit Continue, snd before)
    /\ while_true bs4.BeautifulSoup Samples.settings [c] Samples.fresh_solver
       = (let '(tr, f, s2) :=
            while_true bs4.BeautifulSoup Samples.settings [] (snd before) in
          ((fst (fst before) ++ [Log warning]) ++ tr, f, s2)).
Proof.
  apply stale_option_restarts_the_cycle
    with (chosen_element := 2) (e := Samples.stale).
  - reflexivity.
  - reflexivity.
  - left. reflexivity.
Defined.

(** C7, at a failing input.  [click()] on the chosen card is
    intercepted and the JavaScript click that replaces it raises the
    staleness exception: the turn logs an error and breaks, the run
    ends, and the turn that follows is not started. *)
Theorem stale_script_click_ends_the_run :
  run_solver_loop bs4.BeautifulSoup Samples.settings true
    [Samples.turn_clicking Samples.page_A_to_D "B"
       (Raise Samples.intercepted) (Raise Samples.stale);
     Samples.turn Samples.page_A_to_D "C" (Ok tt) false]
  = ([Log "[INFO] Connected to existing Chrome WebDriver.";
      Log "[INFO] Make sure the quiz page is open and a quiz is active.";
      Log "[INFO] Automation loop started. Use the GUI to stop it.";
      Log "[DEBUG] Config State: BOOSTER.ENABLED = False";
      CheckStop false; CheckStop false; Scrape; Solve;
      Log "[SOLVER] Gemini selected answer option: 'B'.";
      Log "[ERROR] Failed to click chosen option element: Message: stale element reference";
      Log "[INFO] Automation loop finished."],
     true).
Proof. reflexivity. Qed.

(** *** Cancellation *)




End LoopFacts.

(** ** More on the answer selector *)

Module SolverMore.

Import PyStr.
Import PyStrFacts.
Import Py.
Import gemini_solver.
Import SolverFacts.

Lemma requests_spaced_after_success_witness :
  let self := {| api_key := "k"; model_name := "m";
                 rate_limit_interval := 2000; _last_request_time := 9000 |} in
  let w1 := {| now := 10000; oversleep := 3;
               reply := fun _ => Returns (Some "B"); latency := 250 |} in
  let w2 := {| now := 11300; oversleep := 0;
               reply := fun _ => Returns (Some "C"); latency := 10 |} in
  let r1 := get_answer self Samples.payload_A_and_C w1 in
  let r2 := get_answer (solver r1) Samples.payload_A_and_C w2 in
  request_time r1 = 11003%Z
  /\ request_time r2 = 13253%Z
  /\ (request_time r1 + rate_limit_interval self <= request_time r2)%Z.
Proof.
  split; [reflexivity | split; [reflexivity|]].
  apply (requests_spaced_after_success
           {| api_key := "k"; model_name := "m";
              rate_limit_interval := 2000; _last_request_time := 9000 |}
           Samples.payload_A_and_C
           {| now := 10000; oversleep := 3;
              reply := fun _ => Returns (Some "B"); latency := 250 |}
           Samples.payload_A_and_C
           {| now := 11300; oversleep := 0;
              reply := fun _ => Returns (Some "C"); latency := 10 |}
           (Some "B")).
  - reflexivity.
  - simpl. lia.
  - simpl. lia.
Defined.

(** *** Case and margins of the response *)

Lemma upper_char_idem c : upper_char (upper_char c) = upper_char c.
Proof. by_cases_on_char c. Qed.

Lemma upper_lower_char c : upper_char (lower_char c) = upper_char c.
Proof. by_cases_on_char c. Qed.

Lemma upper_idem s : upper (upper s) = upper s.
Proof. induction s as [|c s IH]; simpl; [|rewrite IH, upper_char_idem]; reflexivity. Qed.

Lemma upper_lower s : upper (lower s) = upper s.
Proof. induction s as [|c s IH]; simpl; [|rewrite IH, upper_lower_char]; reflexivity. Qed.


(** *** The order of the options in the request *)

Lemma ascii_compare_trans x y z :
  Ascii.compare x y <> Gt -> Ascii.compare y z <> Gt ->
  Ascii.compare x z <> Gt
  /\ (Ascii.compare x z = Eq -> Ascii.compare x y = Eq /\ Ascii.compare y z = Eq).
Proof.
  unfold Ascii.compare. intros H1 H2.
  destruct (N.compare_spec (N_of_ascii x) (N_of_ascii y));
  destruct (N.compare_spec (N_of_ascii y) (N_of_ascii z));
  destruct (N.compare_spec (N_of_ascii x) (N_of_ascii z));
  try (exfalso; congruence); try lia;
    (split; [discriminate | intros E; try discriminate E; split; reflexivity]).
Qed.

Lemma leb_trans a : forall b c,
  String.leb a b = true -> String.leb b c = true -> String.leb a c = true.
Proof.
  unfold String.leb.
  induction a as [|x a IH]; intros [|y b] [|z c]; simpl; try easy.
  intros H1 H2.
  assert (N1 : Ascii.compare x y <> Gt).
  { intros E. now rewrite E in H1. }
  assert (N2 : Ascii.compare y z <> Gt).
  { intros E. now rewrite E in H2. }
  destruct (ascii_compare_trans x y z N1 N2) as [N3 E3].
  destruct (Ascii.compare x z) eqn:E; [|reflexivity|congruence].
  destruct (E3 eq_refl) as [Exy Eyz]. rewrite Exy in H1. rewrite Eyz in H2.
  exact (IH b c H1 H2).
Qed.

Lemma insert_sorted_comm a b l :
  insert_sorted a (insert_sorted b l) = insert_sorted b (insert_sorted a l).
Proof.
  induction l as [|x l IH]; simpl.
  - destruct (String.leb a b) eqn:Eab, (String.leb b a) eqn:Eba; try reflexivity.
    + now rewrite (String.leb_antisym a b Eab Eba).
    + destruct (String.leb_total a b); congruence.
  - destruct (String.leb a x) eqn:Eax, (String.leb b x) eqn:Ebx; simpl.
    + rewrite Eax, Ebx.
      destruct (String.leb a b) eqn:Eab, (String.leb b a) eqn:Eba; try reflexivity.
      * now rewrite (String.leb_antisym a b Eab Eba).
      * destruct (String.leb_total a b); congruence.
    + rewrite Eax, Ebx.
      destruct (String.leb b a) eqn:Eba; [|reflexivity].
      now rewrite (leb_trans b a x Eba Eax) in Ebx.
    + rewrite Eax, Ebx.
      destruct (String.leb a b) eqn:Eab; [|reflexivity].
      now rewrite (leb_trans a b x Eab Ebx) in Eax.
    + rewrite Eax, Ebx. now rewrite IH.
Qed.

Lemma sorted_Permutation l l' : Permutation l l' -> sorted l = sorted l'.
Proof.
  unfold sorted. induction 1; simpl.
  - reflexivity.
  - now f_equal.
  - apply insert_sorted_comm.
  - congruence.
Qed.

Lemma get_Permutation {V} (d d' : dict V) :
  Permutation d d' -> NoDup (keys d) -> forall k, get d k = get d' k.
Proof.
  induction 1 as [|[k0 v0] d d' HP IH|[k1 v1] [k2 v2] d|d d' d'' HP1 IH1 HP2 IH2];
    intros ND k; simpl.
  - reflexivity.
  - simpl in ND. inversion ND; subst. now rewrite IH.
  - simpl in ND. inversion ND as [|? ? Hin _]; subst.
    destruct (String.eqb_spec k1 k) as [->|]; [|reflexivity].
    destruct (String.eqb_spec k2 k) as [->|]; [|reflexivity].
    exfalso. apply Hin. now left.
  - rewrite IH1 by exact ND. apply IH2.
    apply (Permutation_NoDup (l := keys d)); [|exact ND].
    unfold keys. now apply Permutation_map.
Qed.

(** The request built for the service lists the options by label: two
    scrapes that found the same options in a different order give the
    same request. *)
Theorem request_does_not_depend_on_the_order_of_the_options quiz_data quiz_data' :
  question quiz_data = question quiz_data' ->
  Permutation (options quiz_data) (options quiz_data') ->
  NoDup (keys (options quiz_data)) ->
  _build_contents quiz_data = _build_contents quiz_data'.
Proof.
  intros Hq HP ND. unfold _build_contents. cbv zeta. rewrite <- Hq.
  rewrite <- (sorted_Permutation (keys (options quiz_data)) (keys (options quiz_data')))
    by (unfold keys; now apply Permutation_map).
  f_equal.
  generalize ([PText ("You will receive one question and several answer options. "
            ++ "Identify the single best answer and respond ONLY with its letter.")%string] ++
      _content_part_from_value (question quiz_data) "Question").
  induction (sorted (keys (options quiz_data))) as [|label ls IH]; intros acc; simpl.
  - reflexivity.
  - rewrite <- (get_Permutation _ _ HP ND label). apply IH.
Qed.
Lemma request_does_not_depend_on_the_order_of_the_options_witness :
  _build_contents
    {| question := [Text "2+2=?"];
       options := [("C", [Text "5"]); ("A", [Text "3"])];
       option_elements := [("C", 3); ("A", 1)] |}
  = _build_contents Samples.payload_A_and_C.
Proof.
  apply request_does_not_depend_on_the_order_of_the_options.
  - reflexivity.
  - apply perm_swap.
  - simpl. repeat constructor; simpl; intuition discriminate.
Defined.

End SolverMore.

(** ** More on the content extractor *)

Module ScraperMore.

Import PyStr.
Import PyStrFacts.
Import Py.
Import DictFacts.
Import scraper.
Import ScraperFacts.
Import Content.
Local Open Scope py_scope.

(** *** The text returned is always normalised *)

Lemma solid_snoc cur c :
  solid cur = true -> isspace c = false ->
  solid (cur ++ String c "") = true.
Proof.
  intros Hc Hs. induction cur as [|d cur IH]; simpl in *.
  - now rewrite Hs.
  - apply andb_true_iff in Hc as [Hd Hc]. now rewrite Hd, IH.
Qed.

Lemma split_from_words s : forall cur,
  solid cur = true -> words (split_from cur s).
Proof.
  induction s as [|c s IH]; intros cur Hc; simpl.
  - destruct cur; [constructor|].
    constructor; [split; [discriminate | exact Hc] | constructor].
  - destruct (isspace c) eqn:E.
    + destruct cur; [now apply IH|].
      constructor; [split; [discriminate | exact Hc] | now apply IH].
    + apply IH. now apply solid_snoc.
Qed.

Lemma collapsed_from_word w rest b :
  w <> EmptyString -> solid w = true ->
  Normal.collapsed_from b (w ++ rest) = Normal.collapsed_from false rest.
Proof.
  revert b. induction w as [|c w IH]; intros b Hne Hs; [congruence|].
  simpl in Hs. apply andb_true_iff in Hs as [Hc Hs].
  apply negb_true_iff in Hc.
  cbn [append Normal.collapsed_from].
  destruct (Ascii.eqb c " ") eqn:E.
  - apply space_is_space in E. congruence.
  - rewrite Hc. cbn [negb andb].
    destruct w as [|d w]; [reflexivity|].
    apply IH; [discriminate | exact Hs].
Qed.

Lemma join_words_collapsed l :
  words l -> l <> [] -> Normal.collapsed_from true (join " " l) = true.
Proof.
  induction l as [|w l IH]; intros Hw Hne; [congruence|].
  inversion Hw as [|? ? [Hw1 Hw2] Hl]; subst.
  destruct l as [|v l].
  - cbn [join]. rewrite <- (append_empty_r w).
    now rewrite collapsed_from_word.
  - rewrite join_cons by discriminate.
    rewrite collapsed_from_word by assumption.
    cbn [append Normal.collapsed_from Ascii.eqb Bool.eqb negb andb].
    apply IH; [exact Hl | discriminate].
Qed.

Lemma join_split_is_collapsed t : Normal.collapsed (join " " (split t)) = true.
Proof.
  unfold split.
  pose proof (split_from_words t "" eq_refl) as Hw.
  destruct (split_from "" t) as [|w l] eqn:E; [reflexivity|].
  pose proof (join_words_collapsed (w :: l) Hw) as H.
  destruct (join " " (w :: l)) eqn:Ej; [reflexivity|].
  apply H. discriminate.
Qed.


(** *** What [_extract_element_content] returns and when it raises *)

Section WithParser.

Variable BeautifulSoup : string -> list Node.

Lemma images_appended images : forall parts,
  fold_left
    (fun content_parts img =>
       match is_displayed img with
       | Ok true =>
           match screenshot_as_png img with
           | Ok png => content_parts ++ [Image png]
           | Raise _ => content_parts
           end
       | _ => content_parts
       end)
    images parts
  = parts ++ map Image (captured images).
Proof.
  induction images as [|img images IH]; intros parts; simpl.
  - now rewrite app_nil_r.
  - rewrite IH. unfold captured at 2. cbn [flat_map]. fold (captured images).
    destruct (is_displayed img) as [[]|]; try reflexivity.
    destruct (screenshot_as_png img); [|reflexivity].
    rewrite <- app_assoc. reflexivity.
Qed.

(** The fragments of an element are at most one text, which is not
    empty, followed by one image for each displayed image that could
    be captured, in their order; nothing that goes wrong with the
    images is raised.  The function raises only when reading the
    markup failed and reading the rendered text failed after it, and
    then with the exception of the latter. *)
Theorem element_content_shape element :
  match _extract_element_content BeautifulSoup element with
  | Ok parts =>
      exists texts,
        parts = texts ++ map Image
                  (captured (match imgs element with Ok l => l | Raise _ => [] end))
        /\ List.length texts <= 1
        /\ forallb is_text texts = true
  | Raise e =>
      text element = Raise e
      /\ exists e',
           (raw_html <- innerHTML element ;;
            parse_math_expressions BeautifulSoup raw_html) = Raise e'
  end.
Proof.
  unfold _extract_element_content. cbv zeta.
  assert (Himg : forall (R : Exn -> Prop) texts,
            List.length texts <= 1 -> forallb is_text texts = true ->
            match
              match imgs element with
              | Ok images =>
                  Ok (fold_left
                        (fun content_parts img =>
                           match is_displayed img with
                           | Ok true =>
                               match screenshot_as_png img with
                               | Ok png => content_parts ++ [Image png]
                               | Raise _ => content_parts
                               end
                           | _ => content_parts
                           end) images texts)
              | Raise _ => Ok texts
              end
            with
            | Ok parts =>
                exists texts0,
                  parts = texts0 ++ map Image
                            (captured (match imgs element with
                                       | Ok l => l | Raise _ => [] end))
                  /\ List.length texts0 <= 1
                  /\ forallb is_text texts0 = true
            | Raise e => R e
            end).
  { intros R texts Hl Ht. destruct (imgs element) as [images|].
    - exists texts. rewrite images_appended. now repeat split.
    - exists texts. cbn. rewrite app_nil_r. now repeat split. }
  assert (Hone : forall t, truthy t = true ->
            List.length [Text t] <= 1 /\ forallb is_text [Text t] = true).
  { intros t Ht. simpl. rewrite Ht. split; [lia | reflexivity]. }
  destruct (innerHTML element) as [raw_html|e1]; cbn [bind try_except].
  - destruct (parse_math_expressions BeautifulSoup raw_html) as [t|e2];
      cbn [bind try_except].
    + destruct (truthy t) eqn:Et; cbn [app].
      * apply Himg; now apply Hone.
      * apply Himg; [simpl; lia | reflexivity].
    + destruct (text element) as [t|e3]; cbn [bind].
      * destruct (truthy (strip t)) eqn:Et; cbn [app].
        -- apply Himg; now apply Hone.
        -- apply Himg; [simpl; lia | reflexivity].
      * split; [reflexivity | now exists e2].
  - destruct (text element) as [t|e3]; cbn [bind].
    + destruct (truthy (strip t)) eqn:Et; cbn [app].
      * apply Himg; now apply Hone.
      * apply Himg; [simpl; lia | reflexivity].
    + split; [reflexivity | now exists e1].
Qed.

(** *** Cards that repeat a label *)

Lemma get_set {V} (d : dict V) k v k' :
  get (set d k v) k' = if String.eqb k k' then Some v else get d k'.
Proof.
  induction d as [|[k0 v0] d IH]; simpl.
  - reflexivity.
  - destruct (String.eqb_spec k0 k) as [->|N]; simpl.
    + destruct (String.eqb_spec k k'); reflexivity.
    + rewrite IH. destruct (String.eqb_spec k0 k') as [->|N'].
      * destruct (String.eqb_spec k k'); [congruence | reflexivity].
      * reflexivity.
Qed.

Lemma last_with_label_from label cards : forall found,
  fold_left
    (fun found card =>
       match card_label card with
       | Some l => if String.eqb l label then Some card else found
       | None => found
       end)
    cards found
  = match last_with_label label cards with
    | Some c => Some c
    | None => found
    end.
Proof.
  unfold last_with_label.
  induction cards as [|card cards IH]; intros found; simpl; [reflexivity|].
  rewrite IH. rewrite (IH (match card_label card with
                           | Some l => if String.eqb l label then Some card else None
                           | None => None
                           end)).
  destruct (fold_left _ cards None); [reflexivity|].
  destruct (card_label card) as [l|]; [|reflexivity].
  now destruct (String.eqb l label).
Qed.

Lemma scrape_cards_last label cards : forall o e o' e',
  scrape_cards BeautifulSoup (o, e) cards = Ok (o', e') ->
  match last_with_label label cards with
  | Some c =>
      get e' label = Some (card_id c)
      /\ exists content,
           _extract_element_content BeautifulSoup (content_element c) = Ok content
           /\ get o' label = Some content
  | None => get e' label = get e label /\ get o' label = get o label
  end.
Proof.
  induction cards as [|card cards IH]; intros o e o' e'; cbn [scrape_cards].
  - intros [= <- <-]. now split.
  - destruct (scrape_card BeautifulSoup (o, e) card) as [[o1 e1]|x] eqn:E;
      cbn [bind]; [|discriminate].
    intros H. apply IH in H.
    unfold last_with_label. cbn [fold_left].
    rewrite last_with_label_from.
    destruct (last_with_label label cards) as [c|]; [exact H|].
    destruct H as [He Ho]. rewrite He, Ho.
    unfold scrape_card in E. unfold card_label.
    destruct (label_text card) as [t|]; [|injection E as <- <-; now split].
    cbv zeta in E |- *.
    destruct (mem (upper (strip t)) config.SUPPORTED_OPTION_LABELS);
      cbn [negb] in E; [|injection E as <- <-; now split].
    fold (content_element card) in E.
    destruct (_extract_element_content BeautifulSoup (content_element card))
      as [content|] eqn:Ec; cbn [bind] in E; [|discriminate].
    injection E as <- <-. rewrite !get_set.
    destruct (String.eqb (upper (strip t)) label); [|now split].
    split; [reflexivity | now exists content].
Qed.

(** When several cards carry the same label, the payload holds the
    handle and the content of the last of them (under the key placed
    where the label first occurred); a label no card carries has no
    entry. *)
Theorem repeated_label_last_card_wins driver mode label :
  match scrape_quiz_data BeautifulSoup driver mode,
        present_elements driver config.OPTION_CARD_CLASS with
  | Ok quiz_data, Ok cards =>
      match last_with_label label cards with
      | Some c =>
          get (option_elements quiz_data) label = Some (card_id c)
          /\ exists content,
               _extract_element_content BeautifulSoup (content_element c)
               = Ok content
               /\ get (options quiz_data) label = Some content
      | None =>
          get (option_elements quiz_data) label = None
          /\ get (options quiz_data) label = None
      end
  | Ok _, Raise _ => False
  | Raise _, _ => True
  end.
Proof.
  unfold scrape_quiz_data. cbv zeta.
  destruct (visible_element driver _) as [q|x]; cbn [bind]; [|exact I].
  destruct (_extract_element_content _ q) as [qc|x]; cbn [bind]; [|exact I].
  destruct (present_elements driver _) as [cards|x]; cbn [bind]; [|exact I].
  destruct (scrape_cards _ _ cards) as [[o e]|x] eqn:E; cbn [bind];
    [|exact I].
  apply (scrape_cards_last label) in E.
  destruct o as [|kv o]; [exact I|].
  cbn [options option_elements]. exact E.
Qed.

End WithParser.

End ScraperMore.

(** ** More on the automation loop *)

Module LoopMore.

Import Py.
Import main.
Import Watch.
Import Tally.
Import LoopFacts.
Local Open Scope loop_scope.

(** *** Counting *)

Lemma count_app f a b : count f (a ++ b) = count f a + count f b.
Proof. unfold count. now rewrite filter_app, length_app. Qed.

Lemma trace_seq {A B} (m : M A) (k : A -> M B) s :
  trace (seq m k) s
  = trace m s ++ match m s with
                 | (_, Next a, s1) => trace (k a) s1
                 | (_, Exit _, _) => []
                 end.
Proof.
  unfold trace, seq. destruct (m s) as [[tr [a|c]] s1]; cbn.
  - now destruct (k a s1) as [[tr' r] s2].
  - now rewrite app_nil_r.
Qed.

Lemma at_most_seq {A B} f a b n (m : M A) (k : A -> M B) :
  at_most f a m -> (forall x, at_most f b (k x)) -> a + b <= n ->
  at_most f n (seq m k).
Proof.
  intros Hm Hk Hn s. rewrite trace_seq, count_app.
  specialize (Hm s).
  destruct (m s) as [[tr [x|c]] s1]; [specialize (Hk x s1)|]; cbn in *; lia.
Qed.

Lemma at_most_ret {A} f n (a : A) : at_most f n (ret a).
Proof. intros s. cbn. lia. Qed.

Lemma at_most_leave {A} f n c : at_most f n (@leave A c).
Proof. intros s. cbn. lia. Qed.

Lemma at_most_emit f n e : weight (f e) <= n -> at_most f n (emit e).
Proof. intros H s. unfold count, trace. cbn. destruct (f e); cbn in *; lia. Qed.

Lemma at_most_weaken {A} f n n' (m : M A) :
  at_most f n m -> n <= n' -> at_most f n' m.
Proof. intros H Hn s. specialize (H s). lia. Qed.

Section Counter.

(** A counter that leaves out log lines, sleeps, looks at the signal,
    scrape attempts and the clicks on popup, closing and confirming
    buttons; it may count calls of the solver, clicks on option cards
    and clicks on the action button. *)
Variable f : Event -> bool.
Variable counts_option : bool.
Hypothesis f_log : forall line, f (Log line) = false.
Hypothesis f_sleep : forall ms, f (Sleep ms) = false.
Hypothesis f_check : forall b, f (CheckStop b) = false.
Hypothesis f_scrape : f Scrape = false.
Hypothesis f_popup : f (Clicked PopupButton) = false.
Hypothesis f_close : f (Clicked CloseButton) = false.
Hypothesis f_yes : f (Clicked YesButton) = false.
Hypothesis f_option : forall h, f (Clicked (OptionCard h)) = counts_option.

Variable BeautifulSoup : string -> list scraper.Node.
Variable cfg : config.Settings.

Ltac none :=
  solve
    [ repeat first
        [ apply at_most_ret
        | apply at_most_leave
        | apply at_most_emit;
          rewrite ?f_log, ?f_sleep, ?f_check, ?f_scrape, ?f_popup, ?f_close,
            ?f_yes;
          cbn; lia
        | apply (at_most_seq f 0 0 0); [ | intros ? | lia ] ] ].

Lemma click_close_none btns : at_most f 0 (click_close btns).
Proof.
  induction btns as [|btn btns IH]; simpl; [none|].
  destruct (b_displayed btn) as [[]|]; [|exact IH|none].
  destruct (b_enabled btn) as [[]|]; [|exact IH|none].
  destruct (b_click btn); none.
Qed.

Lemma booster_finished_none sl : at_most f 0 (booster_finished cfg sl).
Proof.
  unfold booster_finished.
  destruct (is_booster cfg); [|none].
  destruct (finished_el sl) as [[]|]; [|none|none].
  apply (at_most_seq f 0 0 0); [none | intros ? | lia].
  apply (at_most_seq f 0 0 0); [| intros ?; none | lia].
  destruct (close_btn sl); [apply click_close_none | none].
Qed.

Lemma click_popups_none popups : at_most f 0 (click_popups popups).
Proof.
  induction popups as [|popup popups IH]; simpl; [none|].
  destruct (p_displayed popup) as [[]|]; [|exact IH|none].
  apply (at_most_seq f 0 0 0); [| intros ?; exact IH | lia].
  destruct (p_button popup) as [popup_btn|]; [|none].
  destruct (b_displayed popup_btn) as [[]|]; [|none|none].
  apply (at_most_seq f 0 0 0); [none | intros ? | lia].
  destruct (b_click popup_btn); none.
Qed.

Lemma booster_popup_none sl : at_most f 0 (booster_popup cfg sl).
Proof.
  unfold booster_popup.
  destruct (is_booster cfg); [|none].
  destruct (popup_els sl); [apply click_popups_none | none].
Qed.

Lemma scrape_failed_none e : at_most f 0 (scrape_failed e).
Proof.
  unfold scrape_failed.
  destruct (is_WebDriverException e); [destruct (_ || _)|]; none.
Qed.

Lemma poll_none per original slices : forall total,
  at_most f 0 (poll BeautifulSoup cfg per original total slices).
Proof.
  induction slices as [|sl slices IH]; intros total; simpl;
    destruct (total <? original)%Z; try none.
  destruct (stop_in_wait sl); [none|].
  apply (at_most_seq f 0 0 0); [none | intros ? | lia].
  apply (at_most_seq f 0 0 0); [apply booster_finished_none | intros ? | lia].
  apply (at_most_seq f 0 0 0); [apply booster_popup_none | intros ? | lia].
  apply (at_most_seq f 0 0 0); [none | intros ? | lia].
  destruct (scraper.scrape_quiz_data _ _ _) as [quiz_data|e]; [none|].
  destruct (cls e); try apply scrape_failed_none. apply IH.
Qed.

Lemma find_question_none c : at_most f 0 (find_question BeautifulSoup cfg c).
Proof.
  unfold find_question.
  apply (at_most_seq f 0 0 0); [none | intros ? | lia].
  destruct (stop_at_top c); [none|]. cbv zeta.
  apply (at_most_seq f 0 0 0); [apply poll_none | intros [quiz_data|] | lia];
    none.
Qed.

Lemma select_once c quiz_data :
  at_most f (weight (f Solve)) (select c quiz_data).
Proof.
  unfold select.
  apply (at_most_seq f (weight (f Solve)) 0); [| intros answer_letter | lia].
  - intros s. unfold count, trace, ask. cbn [fst filter].
    rewrite f_log. destruct (f Solve); cbn; lia.
  - unfold choose.
    destruct (get (option_elements quiz_data) answer_letter); [none|].
    destruct (option_elements quiz_data) as [|[l h] rest]; none.
Qed.

Lemma click_option_once c h :
  at_most f (weight counts_option) (click_option c h).
Proof.
  unfold click_option.
  apply (at_most_seq f 0 (weight counts_option)); [| intros ? | lia].
  - unfold wait_clickable.
    destruct (clickable c h) as [|e]; [none|]. destruct (cls e); none.
  - unfold click_chosen.
    assert (H : at_most f (weight counts_option) (emit (Clicked (OptionCard h)))).
    { apply at_most_emit. now rewrite f_option. }
    destruct (click c h) as [|e]; [exact H|].
    destruct (cls e); try none; (destruct (script_click c h); [exact H | none]).
Qed.

Lemma click_action_once a failure :
  at_most f (weight (f (Clicked ActionButton))) (click_action a failure).
Proof.
  unfold click_action.
  assert (H : at_most f (weight (f (Clicked ActionButton)))
                (emit (Clicked ActionButton))).
  { now apply at_most_emit. }
  destruct (a_click a); [exact H|].
  destruct (a_script_click a); [exact H | none].
Qed.

Lemma stop_check_after_none c : at_most f 0 (stop_check_after c).
Proof. unfold stop_check_after. destruct (stop_after_action c); none. Qed.

Lemma booster_failed_none e : at_most f 0 (booster_failed e).
Proof. unfold booster_failed. destruct (cls e); none. Qed.

Lemma booster_action_once c :
  at_most f (weight (f (Clicked ActionButton))) (booster_action c).
Proof.
  unfold booster_action.
  assert (Hf : forall e, at_most f (weight (f (Clicked ActionButton)))
                           (booster_failed e)).
  { intros e. apply (at_most_weaken f 0); [apply booster_failed_none | lia]. }
  destruct (booster_button c) as [action_button_click|e1]; [|apply Hf].
  destruct (booster_enabled_wait c) as [|e2]; [|apply Hf].
  cbv zeta.
  destruct action_button_click as [|e3]; [|apply Hf].
  apply (at_most_seq f (weight (f (Clicked ActionButton))) 0);
    [now apply at_most_emit | intros ? | lia].
  apply (at_most_seq f 0 0 0); [none | intros ? | lia].
  apply (at_most_seq f 0 0 0); [| intros ?; none | lia].
  destruct (current_question c); [|none].
  destruct (question_stale_wait c) as [|e4]; [none|].
  destruct (cls e4); try apply booster_failed_none. none.
Qed.

Lemma confirm_submission_none c : at_most f 0 (confirm_submission c).
Proof.
  unfold confirm_submission, confirmation_failed.
  destruct (overlay_wait c) as [|e1]; [|destruct (cls e1); none].
  destruct (yes_wait c) as [yes_button|e2]; [|destruct (cls e2); none].
  destruct (y_script_click yes_button) as [|e3]; [none|].
  destruct (y_click yes_button) as [|e4]; [none | destruct (cls e4); none].
Qed.

Lemma standard_action_once c :
  at_most f (weight (f (Clicked ActionButton))) (standard_action cfg c).
Proof.
  unfold standard_action.
  apply (at_most_seq f 0 (weight (f (Clicked ActionButton))));
    [| intros action_button | lia].
  { destruct (action_wait c) as [a|e]; [none | destruct (cls e); none]. }
  apply (at_most_seq f 0 (weight (f (Clicked ActionButton))));
    [| intros action_text | lia].
  { destruct (a_text action_button); none. }
  apply (at_most_seq f 0 (weight (f (Clicked ActionButton))));
    [none | intros ? | lia].
  destruct (String.eqb action_text config.NEXT_BUTTON_TEXT).
  - apply (at_most_seq f (weight (f (Clicked ActionButton))) 0);
      [apply click_action_once | intros ? | lia].
    apply (at_most_seq f 0 0 0); [none | intros ? | lia].
    apply (at_most_seq f 0 0 0);
      [destruct (config.STEALTH_ENABLED cfg); none
      | intros ?; apply stop_check_after_none | lia].
  - destruct (String.eqb action_text config.SUBMIT_BUTTON_TEXT).
    + apply (at_most_seq f 0 (weight (f (Clicked ActionButton))));
        [none | intros ? | lia].
      apply (at_most_seq f (weight (f (Clicked ActionButton))) 0);
        [apply click_action_once | intros ? | lia].
      apply (at_most_seq f 0 0 0);
        [apply confirm_submission_none | intros ?; none | lia].
    + apply (at_most_seq f 0 (weight (f (Clicked ActionButton))));
        [none | intros ? | lia].
      apply (at_most_seq f (weight (f (Clicked ActionButton))) 0);
        [apply click_action_once | intros ? | lia].
      apply (at_most_seq f 0 0 0);
        [none | intros ?; apply stop_check_after_none | lia].
Qed.

Abbreviation per_turn :=
  (weight (f Solve) + weight counts_option + weight (f (Clicked ActionButton))).

Lemma cycle_tally c : at_most f per_turn (cycle BeautifulSoup cfg c).
Proof.
  unfold cycle.
  apply (at_most_seq f 0 per_turn);
    [apply find_question_none | intros quiz_data | lia].
  apply (at_most_seq f (weight (f Solve))
           (weight counts_option + weight (f (Clicked ActionButton))));
    [apply select_once | intros h | lia].
  apply (at_most_seq f (weight counts_option)
           (weight (f (Clicked ActionButton))));
    [apply click_option_once | intros ? | lia].
  unfold advance.
  destruct (is_booster cfg);
    [apply booster_action_once | apply standard_action_once].
Qed.

Lemma while_true_tally script :
  at_most f (List.length script * per_turn) (while_true BeautifulSoup cfg script).
Proof.
  induction script as [|c script IH]; intros s; [cbn; lia|].
  unfold trace. cbn [while_true List.length].
  pose proof (cycle_tally c s) as Hc. unfold trace in Hc.
  destruct (cycle BeautifulSoup cfg c s) as [[tr fl] s1]. cbn [fst] in Hc.
  assert (Hgo : count f
                  (fst (fst (let '(tr', r, s2) :=
                               while_true BeautifulSoup cfg script s1 in
                             (tr ++ tr', r, s2))))
                <= S (List.length script) * per_turn).
  { specialize (IH s1). unfold trace in IH.
    destruct (while_true BeautifulSoup cfg script s1) as [[tr' r] s2].
    cbn [fst] in *. rewrite count_app. lia. }
  destruct fl as [a|[]]; try exact Hgo; cbn [fst]; lia.
Qed.

Lemma run_tally driver_launched script :
  count f (fst (run_solver_loop BeautifulSoup cfg driver_launched script))
  <= List.length script * per_turn.
Proof.
  unfold run_solver_loop, finished.
  destruct (_ || _); [cbn; rewrite f_log; cbn; lia|].
  destruct (negb driver_launched); [cbn; rewrite f_log; cbn; lia|].
  destruct (gemini_solver.__init__ _ _ _) as [solver|];
    [|unfold count; cbn; rewrite !f_log; cbn; lia].
  cbv zeta.
  match goal with |- context [match ?body solver with _ => _ end] =>
    assert (H : at_most f (List.length script * per_turn) body);
    [|specialize (H solver); unfold trace in H;
      destruct (body solver) as [[tr fl] s1]]
  end.
  { apply (at_most_seq f 0 (List.length script * per_turn)); [none | intros ? | lia].
    apply (at_most_seq f 0 (List.length script * per_turn)); [none | intros ? | lia].
    apply (at_most_seq f 0 (List.length script * per_turn)); [none | intros ? | lia].
    apply (at_most_seq f 0 (List.length script * per_turn)); [none | intros ? | lia].
    apply (at_most_seq f 0 (List.length script * per_turn));
      [destruct (is_booster cfg); none | intros ?; apply while_true_tally | lia]. }
  cbn [fst] in H.
  destruct fl as [a|[| | |e|]]; cbn [fst]; rewrite ?count_app; try exact H;
    unfold count at 2; cbn; rewrite ?f_log; cbn; lia.
Qed.

End Counter.

(** In one turn of the loop the solver is asked at most once, at most
    one option card is clicked and the action button is clicked at
    most once; a run over [n] turns does each at most [n] times. *)
Theorem one_answer_and_one_click_of_each_kind_per_turn
    BeautifulSoup cfg :
  (forall c s,
     let tr := trace (cycle BeautifulSoup cfg c) s in
     count is_solve tr <= 1
     /\ count is_option_click tr <= 1
     /\ count is_action_click tr <= 1)
  /\ (forall driver_launched script,
        let tr :=
          fst (run_solver_loop BeautifulSoup cfg driver_launched script) in
        count is_solve tr <= List.length script
        /\ count is_option_click tr <= List.length script
        /\ count is_action_click tr <= List.length script).
Proof.
  split.
  - intros c s tr. subst tr.
    pose proof (cycle_tally is_solve false (fun _ => eq_refl) (fun _ => eq_refl)
                  (fun _ => eq_refl) eq_refl eq_refl eq_refl eq_refl
                  (fun _ => eq_refl) BeautifulSoup cfg c s) as H1.
    pose proof (cycle_tally is_option_click true (fun _ => eq_refl)
                  (fun _ => eq_refl) (fun _ => eq_refl) eq_refl eq_refl eq_refl
                  eq_refl (fun _ => eq_refl) BeautifulSoup cfg c s) as H2.
    pose proof (cycle_tally is_action_click false (fun _ => eq_refl)
                  (fun _ => eq_refl) (fun _ => eq_refl) eq_refl eq_refl eq_refl
                  eq_refl (fun _ => eq_refl) BeautifulSoup cfg c s) as H3.
    cbn in H1, H2, H3. now repeat split.
  - intros driver_launched script tr. subst tr.
    pose proof (run_tally is_solve false (fun _ => eq_refl) (fun _ => eq_refl)
                  (fun _ => eq_refl) eq_refl eq_refl eq_refl eq_refl
                  (fun _ => eq_refl) BeautifulSoup cfg driver_launched script)
      as H1.
    pose proof (run_tally is_option_click true (fun _ => eq_refl)
                  (fun _ => eq_refl) (fun _ => eq_refl) eq_refl eq_refl eq_refl
                  eq_refl (fun _ => eq_refl) BeautifulSoup cfg driver_launched
                  script) as H2.
    pose proof (run_tally is_action_click false (fun _ => eq_refl)
                  (fun _ => eq_refl) (fun _ => eq_refl) eq_refl eq_refl eq_refl
                  eq_refl (fun _ => eq_refl) BeautifulSoup cfg driver_launched
                  script) as H3.
    cbn [weight is_solve is_option_click is_action_click] in H1, H2, H3.
    repeat split; lia.
Qed.

(** *** The wait budget *)

Lemma attempts_spent per original total :
  (0 < per)%Z -> (original <= total)%Z -> attempts per original total = 0.
Proof.
  intros Hp Ht. unfold attempts.
  assert ((original - total + per - 1) / per < 1)%Z
    by (apply Z.div_lt_upper_bound; lia).
  lia.
Qed.

Lemma attempts_left per original total :
  (0 < per)%Z -> (total < original)%Z ->
  attempts per original total = S (attempts per original (total + per)).
Proof.
  intros Hp Ht. unfold attempts.
  replace (original - total + per - 1)%Z
    with ((original - (total + per) + per - 1) + 1 * per)%Z by lia.
  rewrite Z.div_add by lia.
  assert (0 <= (original - (total + per) + per - 1) / per)%Z
    by (apply Z.div_pos; lia).
  lia.
Qed.

Lemma poll_attempts BeautifulSoup cfg per original slices :
  (0 < per)%Z ->
  forall total,
    at_most is_scrape (attempts per original total)
      (poll BeautifulSoup cfg per original total slices).
Proof.
  intros Hp.
  induction slices as [|sl slices IH]; intros total; cbn [poll];
    destruct (Z.ltb_spec total original) as [Hlt|Hge];
    try apply at_most_ret; try apply at_most_leave.
  rewrite (attempts_left per original total Hp Hlt).
  apply (at_most_seq is_scrape 0 (S (attempts per original (total + per))));
    [apply at_most_emit; cbn; lia | intros ? | lia].
  destruct (stop_in_wait sl).
  { apply (at_most_seq is_scrape 0 0);
      [apply at_most_emit; cbn; lia | intros ?; apply at_most_leave | lia]. }
  apply (at_most_seq is_scrape 0 (S (attempts per original (total + per))));
    [apply booster_finished_none; reflexivity | intros ? | lia].
  apply (at_most_seq is_scrape 0 (S (attempts per original (total + per))));
    [apply booster_popup_none; reflexivity | intros ? | lia].
  cbv zeta.
  apply (at_most_seq is_scrape 1 (attempts per original (total + per)));
    [apply at_most_emit; cbn; lia | intros ? | lia].
  destruct (scraper.scrape_quiz_data _ _ _) as [quiz_data|e];
    [apply at_most_ret|].
  destruct (cls e);
    try (apply (at_most_weaken is_scrape 0);
         [apply scrape_failed_none; reflexivity | lia]).
  apply IH.
Qed.

(** One turn of the loop makes at most as many scrape attempts as
    one-second slices fit into the wait budget, rounded up; at most
    one when the loop could not shorten the timeout of the scraper. *)
Theorem scrape_attempts_within_budget BeautifulSoup cfg c s :
  count is_scrape (trace (cycle BeautifulSoup cfg c) s)
  <= if config_writable c
     then Z.to_nat ((config.DEFAULT_WAIT_TIMEOUT cfg + 999) / 1000)
     else 1.
Proof.
  set (bound := if config_writable c
                then Z.to_nat ((config.DEFAULT_WAIT_TIMEOUT cfg + 999) / 1000)
                else 1).
  revert s. change (at_most is_scrape bound (cycle BeautifulSoup cfg c)).
  unfold cycle.
  apply (at_most_seq is_scrape bound 0); [| intros quiz_data | lia].
  - unfold find_question.
    apply (at_most_seq is_scrape 0 bound);
      [apply at_most_emit; cbn; lia | intros ? | lia].
    destruct (stop_at_top c).
    { apply (at_most_seq is_scrape 0 0);
        [apply at_most_emit; cbn; lia | intros ?; apply at_most_leave | lia]. }
    cbv zeta.
    apply (at_most_seq is_scrape bound 0); [| intros [quiz_data|] | lia].
    + subst bound. destruct (config_writable c).
      * pose proof (poll_attempts BeautifulSoup cfg 1000
                      (config.DEFAULT_WAIT_TIMEOUT cfg) (slices c) eq_refl 0) as H.
        unfold attempts in H.
        now replace (config.DEFAULT_WAIT_TIMEOUT cfg - 0 + 1000 - 1)%Z
          with (config.DEFAULT_WAIT_TIMEOUT cfg + 999)%Z in H by lia.
      * destruct (Z.ltb_spec 0 (config.DEFAULT_WAIT_TIMEOUT cfg)) as [Hpos|Hneg].
        -- pose proof (poll_attempts BeautifulSoup cfg
                         (config.DEFAULT_WAIT_TIMEOUT cfg)
                         (config.DEFAULT_WAIT_TIMEOUT cfg) (slices c) Hpos 0) as H.
           rewrite (attempts_left _ _ 0 Hpos Hpos) in H.
           rewrite attempts_spent in H by lia. exact H.
        -- intros s. destruct (slices c) as [|sl rest]; cbn [poll];
             destruct (Z.ltb_spec 0 (config.DEFAULT_WAIT_TIMEOUT cfg));
             try lia; cbn; lia.
    + apply at_most_ret.
    + apply (at_most_seq is_scrape 0 0);
        [apply at_most_emit; cbn; lia | intros ?; apply at_most_leave | lia].
  - apply (at_most_seq is_scrape 0 0);
      [apply (select_once is_scrape (fun _ => eq_refl)) | intros h | lia].
    apply (at_most_seq is_scrape 0 0);
      [apply (click_option_once is_scrape false); reflexivity | intros ? | lia].
    unfold advance. destruct (is_booster cfg).
    + apply (booster_action_once is_scrape); reflexivity.
    + apply (standard_action_once is_scrape); reflexivity.
Qed.

Lemma poll_all_timed_out BeautifulSoup cfg per original slices :
  is_booster cfg = false ->
  (0 < per)%Z ->
  forall total s,
    Forall (fun sl =>
              stop_in_wait sl = false
              /\ exists e,
                   scraper.scrape_quiz_data BeautifulSoup (page sl) "standard"
                   = Raise e
                   /\ cls e = TimeoutException) slices ->
    attempts per original total <= List.length slices ->
    poll BeautifulSoup cfg per original total slices s
    = (timed_out_attempts (attempts per original total), Next None, s).
Proof.
  intros Hb Hp.
  induction slices as [|sl slices IH]; intros total s Hall Hlen; cbn [poll];
    destruct (Z.ltb_spec total original) as [Hlt|Hge];
    try (rewrite attempts_spent by lia; reflexivity).
  - rewrite (attempts_left per original total Hp Hlt) in Hlen.
    cbn in Hlen. lia.
  - inversion Hall as [|? ? [Hstop [e [He Hcls]]] Hrest]; subst.
    rewrite (attempts_left per original total Hp Hlt) in Hlen |- *.
    cbn [List.length] in Hlen.
    rewrite Hstop. unfold booster_finished, booster_popup.
    rewrite Hb, He, Hcls.
    unfold seq at 1. cbn [emit].
    unfold seq at 1. cbn [ret].
    unfold seq at 1. cbn [ret].
    unfold seq at 1. cbn [emit].
    rewrite (IH (total + per)%Z s Hrest) by lia.
    reflexivity.
Qed.



(** *** Submitting *)

Lemma seq_ext {A B} (m : M A) (k k' : A -> M B) s :
  (forall a s1, k a s1 = k' a s1) -> seq m k s = seq m k' s.
Proof.
  intros H. unfold seq. destruct (m s) as [[tr [a|c]] s1]; [|reflexivity].
  now rewrite H.
Qed.

Lemma confirm_submission_goes_on c s :
  exists tr, confirm_submission c s = (tr, Next tt, s).
Proof.
  unfold confirm_submission, confirmation_failed.
  destruct (overlay_wait c) as [|e1]; [|destruct (cls e1); now eexists].
  destruct (yes_wait c) as [yes_button|e2]; [|destruct (cls e2); now eexists].
  destruct (y_script_click yes_button) as [|e3]; [now eexists|].
  destruct (y_click yes_button) as [|e4];
    [now eexists | destruct (cls e4); now eexists].
Qed.

Lemma submit_breaks cfg c s a t :
  action_wait c = Ok a ->
  a_text a = Ok t ->
  PyStr.strip t = config.SUBMIT_BUTTON_TEXT ->
  exists tr, standard_action cfg c s = (tr, Exit Break, s).
Proof.
  intros Ha Ht Hs. unfold standard_action. rewrite Ha.
  unfold seq at 1. cbn [ret]. rewrite Ht.
  unfold seq at 1. cbn [ret]. rewrite Hs.
  unfold seq at 1. cbn [log emit].
  cbn [String.eqb Ascii.eqb Bool.eqb config.SUBMIT_BUTTON_TEXT
       config.NEXT_BUTTON_TEXT].
  unfold seq at 1. cbn [log emit].
  unfold click_action.
  destruct (a_click a); [|destruct (a_script_click a)].
  - unfold seq at 1. cbn [emit].
    destruct (confirm_submission_goes_on c s) as [tr H].
    unfold seq at 1. rewrite H. cbn. now eexists.
  - unfold seq at 1. cbn [emit].
    destruct (confirm_submission_goes_on c s) as [tr H].
    unfold seq at 1. rewrite H. cbn. now eexists.
  - cbn. now eexists.
Qed.

(** In standard mode, when the action button reads "Submit Quiz"
    (whitespace around it aside), the turn ends by [break] whatever
    becomes of the click and of the confirmation popup: the loop ends
    and the turns that would follow are not started. *)
Theorem submit_ends_the_loop
    BeautifulSoup cfg c rest s pre s1 a t :
  is_booster cfg = false ->
  (quiz_data <~ find_question BeautifulSoup cfg c ;;
   chosen_element <~ select c quiz_data ;;
   click_option c chosen_element) s = (pre, Next tt, s1) ->
  action_wait c = Ok a ->
  a_text a = Ok t ->
  PyStr.strip t = config.SUBMIT_BUTTON_TEXT ->
  exists tr,
    while_true BeautifulSoup cfg (c :: rest) s = (pre ++ tr, Exit Break, s1).
Proof.
  intros Hb Hpre Ha Ht Hs.
  destruct (submit_breaks cfg c s1 a t Ha Ht Hs) as [tr Htr].
  exists tr. apply break_ends_the_loop.
  assert (Hc : cycle BeautifulSoup cfg c s
               = seq (quiz_data <~ find_question BeautifulSoup cfg c ;;
                      chosen_element <~ select c quiz_data ;;
                      click_option c chosen_element)
                   (fun _ => advance cfg c) s).
  { unfold cycle. rewrite seq_assoc. apply seq_ext.
    intros quiz_data s0. now rewrite seq_assoc. }
  rewrite Hc, (seq_next _ _ _ _ _ _ Hpre).
  unfold advance. rewrite Hb, Htr. reflexivity.
Qed.

Lemma submit_ends_the_loop_witness :
  let c := MoreSamples.turn_with
             [{| stop_in_wait := false; finished_el := Ok false;
                 close_btn := Ok []; popup_els := Ok [];
                 page := Samples.page_A_to_D |}]
             (Ok MoreSamples.submit_button) in
  let before :=
    (quiz_data <~ find_question bs4.BeautifulSoup Samples.settings c ;;
     chosen_element <~ select c quiz_data ;;
     click_option c chosen_element) Samples.fresh_solver in
  exists tr,
    while_true bs4.BeautifulSoup Samples.settings
      [c; Samples.turn Samples.page_A_to_D "C" (Ok tt) false]
      Samples.fresh_solver
    = (fst (fst before) ++ tr, Exit Break, snd before).
Proof.
  apply submit_ends_the_loop
    with (a := MoreSamples.submit_button) (t := " Submit Quiz ");
    reflexivity.
Defined.

(** *** The completion screen of a booster quiz *)

Lemma click_close_shape btns s :
  click_close btns s = ([], Next tt, s)
  \/ click_close btns s
     = ([Clicked CloseButton;
         Log "[ACTION] Clicked final 'Next' button to close quiz.";
         Sleep 1000], Next tt, s).
Proof.
  induction btns as [|btn btns IH]; simpl; [now left|].
  destruct (b_displayed btn) as [[]|]; [|exact IH|now left].
  destruct (b_enabled btn) as [[]|]; [|exact IH|now left].
  destruct (b_click btn); [now right | now left].
Qed.

(** In booster mode, when the completion screen is there at a look
    for the question, the loop logs it, clicks at most one closing
    button and returns: nothing is scraped, the solver is not asked,
    and the slices and turns that would follow are not started. *)
Theorem completion_screen_ends_the_run
    BeautifulSoup cfg per original total sl rest s :
  is_booster cfg = true ->
  (total <? original)%Z = true ->
  stop_in_wait sl = false ->
  finished_el sl = Ok true ->
  exists closing,
    poll BeautifulSoup cfg per original total (sl :: rest) s
    = (CheckStop false
       :: Log "[INFO] Booster Quiz Finished (Completion screen detected)."
       :: closing,
       Exit Return, s)
    /\ (closing = []
        \/ closing = [Clicked CloseButton;
                      Log "[ACTION] Clicked final 'Next' button to close quiz.";
                      Sleep 1000]).
Proof.
  intros Hb Ht Hs Hf. cbn [poll]. rewrite Ht, Hs.
  unfold booster_finished. rewrite Hb, Hf.
  unfold seq at 1. cbn [emit].
  unfold seq at 1. unfold seq at 1. cbn [log emit].
  destruct (close_btn sl) as [btns|].
  - destruct (click_close_shape btns s) as [H|H];
      unfold seq at 1; rewrite H; cbn; eexists; split; try reflexivity;
      [now left | now right].
  - cbn. eexists. split; [reflexivity | now left].
Qed.

Lemma completion_screen_ends_the_run_witness :
  run_solver_loop bs4.BeautifulSoup MoreSamples.boosted true
    [MoreSamples.turn_with [MoreSamples.completed; MoreSamples.waiting]
       (Ok Samples.next_button)]
  = ([Log "[INFO] Connected to existing Chrome WebDriver.";
      Log "[INFO] Make sure the quiz page is open and a quiz is active.";
      Log "[INFO] Automation loop started. Use the GUI to stop it.";
      Log "[DEBUG] Config State: BOOSTER.ENABLED = True";
      Log "[DEBUG] Booster Selectors: Question='boosterQuestion', Button='.v2-btn-rgt, .btn-rgt'";
      CheckStop false; CheckStop false;
      Log "[INFO] Booster Quiz Finished (Completion screen detected).";
      Clicked CloseButton;
      Log "[ACTION] Clicked final 'Next' button to close quiz.";
      Sleep 1000;
      Log "[INFO] Automation loop finished."], true)
  /\ exists closing,
       poll bs4.BeautifulSoup MoreSamples.boosted 1000 300000 0
         [MoreSamples.completed; MoreSamples.waiting] Samples.fresh_solver
       = (CheckStop false
          :: Log "[INFO] Booster Quiz Finished (Completion screen detected)."
          :: closing,
          Exit Return, Samples.fresh_solver)
       /\ (closing = []
           \/ closing = [Clicked CloseButton;
                         Log "[ACTION] Clicked final 'Next' button to close quiz.";
                         Sleep 1000]).
Proof.
  split; [reflexivity|].
  apply completion_screen_ends_the_run; reflexivity.
Defined.

End LoopMore.


(** ** Text handed to the page *)

Module WebviewFacts.

Import PyStrFacts.
Import app_webview.

Lemma replace_char_app old new a b :
  replace_char old new (a ++ b)
  = (replace_char old new a ++ replace_char old new b)%string.
Proof.
  induction a as [|c a IH]; simpl; [reflexivity|].
  rewrite IH. destruct (Ascii.eqb c old); [now rewrite append_assoc | reflexivity].
Qed.

Lemma _js_escape_app a b :
  _js_escape (a ++ b) = (_js_escape a ++ _js_escape b)%string.
Proof. unfold _js_escape. now rewrite !replace_char_app. Qed.

(** What becomes of one character. *)
Definition escaped (c : ascii) : string :=
  if Ascii.eqb c backslash then "\\"
  else if Ascii.eqb c quote then "\'"
  else if Ascii.eqb c CR then ""
  else if Ascii.eqb c LF then "\n"
  else String c "".

Lemma _js_escape_char c : _js_escape (String c "") = escaped c.
Proof. by_cases_on_char c. Qed.

Lemma _js_escape_cons c t :
  _js_escape (String c t) = (escaped c ++ _js_escape t)%string.
Proof.
  change (String c t) with (String c "" ++ t)%string.
  now rewrite _js_escape_app, _js_escape_char.
Qed.

Lemma js_literal_value_escaped c body :
  js_literal_value (escaped c ++ body)
  = match js_literal_value body with
    | Some v => Some (replace_char CR "" (String c "") ++ v)%string
    | None => None
    end.
Proof.
  destruct c as [[] [] [] [] [] [] [] []]; cbn;
    destruct (js_literal_value body); reflexivity.
Qed.

(** The text that [_js_escape] returns, put between single quotes, is
    a JavaScript string literal, and its value is the text it was
    given without its carriage returns. *)
Theorem js_escape_gives_a_literal_of_the_text text :
  js_literal_value (_js_escape text) = Some (replace_char CR "" text).
Proof.
  induction text as [|c text IH]; [reflexivity|].
  rewrite _js_escape_cons, js_literal_value_escaped, IH.
  change (String c text) with (String c "" ++ text)%string.
  now rewrite replace_char_app.
Qed.

End WebviewFacts.

(** ** Settings kept in config.json *)

Module SettingsFacts.

Import PyStr.
Import Py.
Import config_manager.
Local Open Scope py_scope.

Lemma get_or_set d k v k' default :
  get_or (set d k v) k' default
  = if String.eqb k k' then v else get_or d k' default.
Proof. unfold get_or. rewrite ScraperMore.get_set. now destruct (String.eqb k k'). Qed.

Section Conversions.

Variable float_of_str : string -> option Z.
Variable str_of_num : Z -> string.

Abbreviation float := (float float_of_str).
Abbreviation str := (str str_of_num).
Abbreviation save_settings := (save_settings float_of_str str_of_num).
Abbreviation update_settings := (update_settings float_of_str str_of_num).

(** What a successful save is made of. *)
Lemma save_settings_success file settings_dict answer file' :
  save_settings file settings_dict = (answer, file') ->
  get answer "status" = Some (Str "success") ->
  exists current_data rate lo hi,
    _read_json file = Some current_data
    /\ float (get_or settings_dict "rateLimitSeconds" (Num 0)) = Ok rate
    /\ float (get_or settings_dict "minDelaySeconds" (Num 5000)) = Ok lo
    /\ float (get_or settings_dict "maxDelaySeconds" (Num 20000)) = Ok hi
    /\ file'
       = Object
           (set (set (set (set (set (set (set current_data
              "API_KEY" (Str (str (get_or settings_dict "apiKey" (Str "")))))
              "GEMINI_MODEL_NAME" (Str (str (get_or settings_dict "modelName" (Str "")))))
              "API_RATE_LIMIT_INTERVAL" (Num rate))
              "STEALTH_ENABLED"
                (Bool (bool_ (get_or settings_dict "stealthEnabled" (Bool false)))))
              "MIN_DELAY_SECONDS" (Num lo))
              "MAX_DELAY_SECONDS" (Num hi))
              "BOOSTER_ENABLED"
                (Bool (bool_ (get_or settings_dict "boosterEnabled" (Bool false))))).
Proof.
  unfold config_manager.save_settings, config_manager.update_settings.
  destruct (float (get_or settings_dict "rateLimitSeconds" (Num 0))) as [rate|e];
    cbn [bind]; [|intros [= <- <-]; discriminate].
  destruct (float (get_or settings_dict "minDelaySeconds" (Num 5000))) as [lo|e];
    cbn [bind]; [|intros [= <- <-]; discriminate].
  destruct (float (get_or settings_dict "maxDelaySeconds" (Num 20000))) as [hi|e];
    cbn [bind]; [|intros [= <- <-]; discriminate].
  destruct (_read_json file) as [current_data|];
    [|intros [= <- <-]; discriminate].
  cbn. intros [= <- <-] _.
  exists current_data, rate, lo, hi. repeat split; reflexivity.
Qed.

(** A form that was saved is the form that is loaded: after
    [save_settings] answered with success, [load_settings] gives the
    key and the model name as strings, the three durations as the
    numbers the form's entries denote, and the two switches as
    booleans, whatever [config.json] held before and whatever the module
    [config] had loaded. *)
Theorem saved_settings_are_loaded file settings_dict answer file' ns :
  save_settings file settings_dict = (answer, file') ->
  get answer "status" = Some (Str "success") ->
  exists rate lo hi,
    float (get_or settings_dict "rateLimitSeconds" (Num 0)) = Ok rate
    /\ float (get_or settings_dict "minDelaySeconds" (Num 5000)) = Ok lo
    /\ float (get_or settings_dict "maxDelaySeconds" (Num 20000)) = Ok hi
    /\ fst (load_settings ns file')
       = [("apiKey", Str (str (get_or settings_dict "apiKey" (Str ""))));
          ("modelName", Str (str (get_or settings_dict "modelName" (Str ""))));
          ("rateLimitSeconds", Num rate);
          ("stealthEnabled",
           Bool (bool_ (get_or settings_dict "stealthEnabled" (Bool false))));
          ("minDelaySeconds", Num lo);
          ("maxDelaySeconds", Num hi);
          ("boosterEnabled",
           Bool (bool_ (get_or settings_dict "boosterEnabled" (Bool false))))].
Proof.
  intros Hs Ha.
  destruct (save_settings_success _ _ _ _ Hs Ha)
    as (current_data & rate & lo & hi & _ & Hr & Hl & Hh & ->).
  exists rate, lo, hi. repeat (split; [assumption|]).
  unfold load_settings, read_settings, reload.
  cbn [fst bind API_KEY GEMINI_MODEL_NAME API_RATE_LIMIT_INTERVAL STEALTH_ENABLED
       MIN_DELAY_SECONDS MAX_DELAY_SECONDS BOOSTER_ENABLED].
  rewrite !get_or_set. reflexivity.
Qed.

(** A save touches the seven settings only: every other entry of
    [config.json] is kept with its value, and an entry that was not
    there is not created. *)
Theorem save_keeps_the_other_entries file settings_dict answer file' k :
  save_settings file settings_dict = (answer, file') ->
  get answer "status" = Some (Str "success") ->
  mem k written = false ->
  exists current_data d',
    _read_json file = Some current_data
    /\ file' = Object d'
    /\ get d' k = get current_data k.
Proof.
  intros Hs Ha Hk.
  destruct (save_settings_success _ _ _ _ Hs Ha)
    as (current_data & rate & lo & hi & Hread & _ & _ & _ & ->).
  eexists current_data, _. split; [exact Hread|]. split; [reflexivity|].
  unfold mem, written in Hk. cbn [existsb] in Hk.
  repeat (apply orb_false_iff in Hk; destruct Hk as [? Hk]).
  rewrite !ScraperMore.get_set.
  repeat match goal with
         | H : String.eqb k ?x = false |- _ =>
             rewrite (String.eqb_sym k x) in H; rewrite H; clear H
         end.
  reflexivity.
Qed.


End Conversions.

Lemma saved_settings_are_loaded_witness :
  let file' := snd (config_manager.save_settings
                      SettingsSamples.float_of_str SettingsSamples.str_of_num
                      SettingsSamples.old_file SettingsSamples.form) in
  exists rate lo hi,
    config_manager.float SettingsSamples.float_of_str
      (get_or SettingsSamples.form "rateLimitSeconds" (Num 0)) = Ok rate
    /\ config_manager.float SettingsSamples.float_of_str
         (get_or SettingsSamples.form "minDelaySeconds" (Num 5000)) = Ok lo
    /\ config_manager.float SettingsSamples.float_of_str
         (get_or SettingsSamples.form "maxDelaySeconds" (Num 20000)) = Ok hi
    /\ fst (load_settings Unbound file')
       = [("apiKey", Str "k-123");
          ("modelName", Str "gemini-2.5-flash");
          ("rateLimitSeconds", Num rate);
          ("stealthEnabled", Bool true);
          ("minDelaySeconds", Num lo);
          ("maxDelaySeconds", Num hi);
          ("boosterEnabled", Bool false)].
Proof.
  exact (saved_settings_are_loaded
           SettingsSamples.float_of_str SettingsSamples.str_of_num
           SettingsSamples.old_file SettingsSamples.form
           _ _ Unbound eq_refl eq_refl).
Defined.

Lemma save_keeps_the_other_entries_witness :
  exists current_data d',
    _read_json SettingsSamples.old_file = Some current_data
    /\ snd (config_manager.save_settings
              SettingsSamples.float_of_str SettingsSamples.str_of_num
              SettingsSamples.old_file SettingsSamples.form) = Object d'
    /\ get d' "THEME" = get current_data "THEME".
Proof.
  exact (save_keeps_the_other_entries
           SettingsSamples.float_of_str SettingsSamples.str_of_num
           SettingsSamples.old_file SettingsSamples.form
           _ _ "THEME" eq_refl eq_refl eq_refl).
Defined.

End SettingsFacts.
